(** * Request analytics of ponzu: [system/api/analytics/init.go]

    A shallow embedding of [Record] and [ChartData], and of the parts of Go's
    [time], [strings], [encoding/json] and [bolt] packages that the two
    functions call, followed by the properties of the event recorder and of
    the 14-day aggregation. *)

From Stdlib Require Import ZArith Lia Ascii String List.
From stdpp Require Import base decidable option list gmap sets strings pretty.

Local Open Scope Z_scope.

(** ** Go's [int] and [int64] *)

Module GoInt.

Definition min_int : Z := - 2 ^ 63.
Definition max_int : Z := 2 ^ 63 - 1.

(** Two's complement wrap-around of a 64-bit signed integer ([int] is 64
    bits wide on the platforms ponzu is built for). *)
Definition wrap (z : Z) : Z := (z + 2 ^ 63) mod 2 ^ 64 - 2 ^ 63.

(** [x * y] on int64. *)
Definition mul (x y : Z) : Z := wrap (x * y).

(** [x++] on int. *)
Definition incr (x : Z) : Z := wrap (x + 1).

(** [x / 1000] on int64: the quotient truncated toward zero.  It is no
    larger in size than [x], so it never wraps around. *)
Definition quo1000 (x : Z) : Z := Z.quot x 1000.

Lemma wrap_small z : min_int <= z <= max_int -> wrap z = z.
Proof.
  unfold min_int, max_int, wrap. intros Hz.
  rewrite Z.mod_small; lia.
Qed.

Lemma incr_small x : 0 <= x < max_int -> incr x = x + 1.
Proof. unfold incr, max_int. intros Hx. apply wrap_small. unfold min_int, max_int. lia. Qed.

End GoInt.

(** ** Go's [strings] package *)

Module GoStrings.

(** [strings.HasPrefix(s, p)]. *)
Fixpoint HasPrefix (s p : string) {struct p} : bool :=
  match p, s with
  | EmptyString, _ => true
  | String _ _, EmptyString => false
  | String c p', String d s' => Ascii.eqb c d && HasPrefix s' p'
  end.

(** [strings.Contains(s, sub)]: [sub] occurs at some byte offset of [s]. *)
Fixpoint Contains (s sub : string) : bool :=
  HasPrefix s sub ||
  match s with
  | EmptyString => false
  | String _ s' => Contains s' sub
  end.

End GoStrings.

(** ** Go's [time] package, as far as the analytics code uses it *)

Module GoTime.

(** A [time.Time]: an instant (seconds and nanoseconds since the Unix epoch)
    together with the offset east of UTC, in seconds, that the value's
    [Location] has at that instant.  [time.Now()] carries the local zone of
    the process; [time.Date(..., time.UTC)] carries offset 0. *)
Record Time := mkTime { sec : Z; nsec : Z; zone : Z }.

Definition secondsPerDay : Z := 86400.

(** Civil date (year, month, day) of a day number, counted from 1970-01-01,
    in the proleptic Gregorian calendar. *)
Definition civil_from_days (z : Z) : Z * Z * Z :=
  let z' := z + 719468 in
  let era := z' / 146097 in
  let doe := z' - era * 146097 in
  let yoe := (doe - doe / 1460 + doe / 36524 - doe / 146096) / 365 in
  let doy := doe - (365 * yoe + yoe / 4 - yoe / 100) in
  let mp := (5 * doy + 2) / 153 in
  let d := doy - (153 * mp + 2) / 5 + 1 in
  let m := if mp <? 10 then mp + 3 else mp - 9 in
  let y := yoe + era * 400 in
  (if m <=? 2 then y + 1 else y, m, d).

(** Day number of a civil date.  As [time.Date] does, the month is first
    normalised into 1..12 (carrying into the year) and the day of the month
    is added as it is. *)
Definition days_from_civil (y m d : Z) : Z :=
  let y0 := y + (m - 1) / 12 in
  let m0 := (m - 1) mod 12 + 1 in
  let y1 := if m0 <=? 2 then y0 - 1 else y0 in
  let era := y1 / 400 in
  let yoe := y1 - era * 400 in
  let mp := if 2 <? m0 then m0 - 3 else m0 + 9 in
  let doy := (153 * mp + 2) / 5 + d - 1 in
  let doe := yoe * 365 + yoe / 4 - yoe / 100 + doy in
  era * 146097 + doe - 719468.

(** The day number of the wall clock that [t] shows in its own zone. *)
Definition wall_days (t : Time) : Z := (sec t + zone t) / secondsPerDay.

(** [t.Year()], [t.Month()], [t.Day()]: read off the wall clock of [t]. *)
Definition Year (t : Time) : Z := fst (fst (civil_from_days (wall_days t))).
Definition Month (t : Time) : Z := snd (fst (civil_from_days (wall_days t))).
Definition Day (t : Time) : Z := snd (civil_from_days (wall_days t)).

(** [time.Date(y, m, d, 0, 0, 0, 0, time.UTC)]. *)
Definition Date_UTC (y m d : Z) : Time :=
  mkTime (days_from_civil y m d * secondsPerDay) 0 0.

(** [time.Unix(s, 0)].  The result is in the local zone, which no comparison
    reads; the offset is recorded as 0. *)
Definition FromUnix (s : Z) : Time := mkTime s 0 0.

(** [t.Unix()]. *)
Definition Unix (t : Time) : Z := sec t.

(** [t.Add(time.Hour * time.Duration(h))]; the location is kept. *)
Definition AddHours (t : Time) (h : Z) : Time :=
  mkTime (sec t + 3600 * h) (nsec t) (zone t).

(** [t.Before(u)], [t.After(u)] and [t.Equal(u)] compare instants. *)
Definition Before (t u : Time) : bool :=
  (sec t <? sec u) || ((sec t =? sec u) && (nsec t <? nsec u)).
Definition After (t u : Time) : bool := Before u t.
Definition Equal (t u : Time) : bool :=
  (sec t =? sec u) && (nsec t =? nsec u).

(** Two decimal digits, zero padded. *)
Definition digit (n : Z) : ascii := ascii_of_nat (48 + Z.to_nat n).
Definition pad2 (n : Z) : string :=
  String (digit (n / 10)) (String (digit (n mod 10)) EmptyString).

(** [t.Format("01/02")]: month and day of the month of the wall clock. *)
Definition Format_01_02 (t : Time) : string :=
  (pad2 (Month t) ++ "/" ++ pad2 (Day t))%string.

(** The zero value [time.Time{}]: January 1 of year 1, 00:00 UTC. *)
Definition zeroTime : Time := mkTime (-62135596800) 0 0.

End GoTime.

Import GoStrings GoTime.

(** ** The analytics package *)

(** Go's [error], by its message. *)
Definition error : Type := string.

(** A call that returns [(value, err)]. *)
Inductive result (A : Type) : Type :=
| Ok (a : A)
| Err (e : error).
Arguments Ok {A} a.
Arguments Err {A} e.

(** [type apiRequest struct]. *)
Record apiRequest := mkApiRequest {
  URL : string;
  Method : string;
  Origin : string;
  Proto : string;
  RemoteAddr : string;
  Timestamp : Z;
  External : bool
}.

(** What [Record] reads of its [*http.Request]. *)
Record Request := mkRequest {
  URL_Path : string;       (* req.URL.Path *)
  URL_String : string;     (* req.URL.String() *)
  Request_Method : string; (* req.Method *)
  Header_Origin : string;  (* req.Header.Get("Origin") *)
  Request_Proto : string;  (* req.Proto *)
  Request_RemoteAddr : string (* req.RemoteAddr *)
}.

(** [Record]: [now] is the reading of [time.Now()], [requestChan] the
    content of the buffered channel, oldest first; the send appends. *)
Definition Record (now : Time) (req : Request) (requestChan : list apiRequest)
  : list apiRequest :=
  let external := Contains (URL_Path req) "/external/" in
  let r := {| URL := URL_String req;
              Method := Request_Method req;
              Origin := Header_Origin req;
              Proto := Request_Proto req;
              RemoteAddr := Request_RemoteAddr req;
              Timestamp := GoInt.mul (Unix now) 1000;
              External := external |} in
  requestChan ++ [r].

(** Go's [[]byte]. *)
Abbreviation bytes := (list Byte.byte).

#[global] Instance byte_eq_dec : EqDecision Byte.byte := Byte.byte_eq_dec.

(** The analytics store as [ChartData] meets it after [Init]: either
    [store.View] cannot begin its transaction and returns an error, or it
    runs the function on the "requests" bucket, whose key/value pairs
    [ForEach] visits in key order. *)
Inductive DB : Type :=
| NotOpen (err : error)
| Requests (entries : list (bytes * bytes)).

(** The values of the [map[string]interface{}] that [ChartData] returns. *)
Inductive value : Type :=
| Strings (l : list string)
| Str (s : string).

(** [log.Println(a, b)]: the operands separated by a space (the date prefix
    and the final newline are left out). *)
Definition Println (a b : string) : string := (a ++ " " ++ b)%string.

(** Indexing an array or slice with an [int]; [None] is the run-time panic
    of an index out of range. *)
Definition index {A : Type} (a : list A) (j : Z) : option A :=
  if (0 <=? j) && (j <? Z.of_nat (length a)) then a !! Z.to_nat j else None.

Definition assign {A : Type} (a : list A) (j : Z) (x : A) : option (list A) :=
  if (0 <=? j) && (j <? Z.of_nat (length a)) then Some (<[Z.to_nat j := x]> a)
  else None.

(** [for j := range a]: the indices [0 .. len(a)-1]. *)
Definition range {A : Type} (a : list A) : list Z := seqZ 0 (Z.of_nat (length a)).

(** The three arrays of the aggregation: [total], [unique] and [ips]. *)
Record counters := mkCounters {
  total : list Z;
  unique : list Z;
  ips : list (gset string)
}.

(** The record keeping that the three branches of the inner loop share:
<<
    total[j]++
    if _, ok := ips[j][addr]; !ok { unique[j]++; ips[j][addr] = struct{}{} }
>> *)
Definition record_keeping (j : Z) (addr : string) (c : counters) : option counters :=
  t ← index (total c) j;
  total' ← assign (total c) j (GoInt.incr t);
  seen ← index (ips c) j;
  if decide (addr ∈ seen) then
    Some {| total := total'; unique := unique c; ips := ips c |}
  else
    u ← index (unique c) j;
    unique' ← assign (unique c) j (GoInt.incr u);
    ips' ← assign (ips c) j ({[addr]} ∪ seen);
    Some {| total := total'; unique := unique'; ips := ips' |}.

(** The instant that the aggregation gives a request:
    [time.Unix(requests[i].Timestamp/1000, 0)]. *)
Definition instant (r : apiRequest) : Time :=
  FromUnix (GoInt.quo1000 (Timestamp r)).

(** The inner loop [for j := range times], from index [j] on, for one
    request.  Returning without a recursive call is
    [continue CHECK_REQUEST]. *)
Fixpoint check_request (times : list Time) (r : apiRequest) (js : list Z)
  (c : counters) : option counters :=
  match js with
  | [] => Some c
  | j :: js' =>
    let ts := instant r in
    tj ← index times j;
    if (j =? Z.of_nat (length times) - 1) && (After ts tj || Equal ts tj) then
      record_keeping j (RemoteAddr r) c
    else if Equal ts tj then
      record_keeping j (RemoteAddr r) c
    else if Before ts tj then
      if j =? 0 then Some c
      else
        c' ← record_keeping (j - 1) (RemoteAddr r) c;
        check_request times r js' c'
    else check_request times r js' c
  end.

(** The outer loop [for i := range requests]. *)
Fixpoint aggregate (times : list Time) (requests : list apiRequest)
  (c : counters) : option counters :=
  match requests with
  | [] => Some c
  | r :: rest =>
    c' ← check_request times r (range times) c;
    aggregate times rest c'
  end.

(** [today]: UTC midnight of the date that the wall clock of [now] shows. *)
Definition today (now : Time) : Time :=
  Date_UTC (Year now) (Month now) (Day now).

(** The first loop of [ChartData]: for each [i], the day [24 * i] hours
    before [today] goes to position [len(times)-1-i] of [times], and its
    label to the same position of [dates]. *)
Fixpoint fill_days (today : Time) (idx : list Z) (times : list Time)
  (dates : list string) : option (list Time * list string) :=
  match idx with
  | [] => Some (times, dates)
  | i :: idx' =>
    let dur := 24 * i * -1 in
    let day := AddHours today dur in
    times' ← assign times (Z.of_nat (length times) - 1 - i) day;
    dates' ← assign dates (Z.of_nat (length times) - 1 - i) (Format_01_02 day);
    fill_days today idx' times' dates'
  end.

(** What a call of [ChartData] leaves behind: the returned map (or nil), the
    returned error (or nil) and the lines written to the log. *)
Record returned := mkReturned {
  ret_data : option (gmap string value);
  ret_err : option error;
  logged : list string
}.

Section Analytics.

(** [json.Unmarshal] into an [apiRequest], and [json.Marshal] of a
    [[14]int]. *)
Variable json_Unmarshal : bytes -> result apiRequest.
Variable json_Marshal : list Z -> result string.

(** The function given to [b.ForEach]: it always returns nil, so the
    iteration visits every pair. *)
Definition decode_entry (kv : bytes * bytes) (acc : list apiRequest * list string)
  : list apiRequest * list string :=
  match json_Unmarshal (snd kv) with
  | Err err =>
    (fst acc, snd acc ++ [Println "Error decoding json from analytics db:" err])
  | Ok r => (fst acc ++ [r], snd acc)
  end.

Fixpoint ForEach (entries : list (bytes * bytes))
  (acc : list apiRequest * list string) : list apiRequest * list string :=
  match entries with
  | [] => acc
  | kv :: rest => ForEach rest (decode_entry kv acc)
  end.

(** [ChartData]; [None] stands for a run-time panic. *)
Definition ChartData (now : Time) (store : DB) : option returned :=
  let times := replicate 14 zeroTime in
  let dates := replicate 14 EmptyString in
  let today := today now in
  '(times, dates) ← fill_days today (range times) times dates;
  match store with
  | NotOpen err => Some {| ret_data := None; ret_err := Some err; logged := [] |}
  | Requests entries =>
    let '(requests, log) := ForEach entries ([], []) in
    c ← aggregate times requests
          {| ips := replicate 14 (∅ : gset string);
             total := replicate 14 0;
             unique := replicate 14 0 |};
    match json_Marshal (unique c) with
    | Err err => Some {| ret_data := None; ret_err := Some err; logged := log |}
    | Ok jsUnique =>
      match json_Marshal (total c) with
      | Err err => Some {| ret_data := None; ret_err := Some err; logged := log |}
      | Ok jsTotal =>
        from ← index dates 0;
        to ← index dates (Z.of_nat (length dates) - 1);
        Some {| ret_data := Some (<["dates" := Strings dates]>
                                  (<["unique" := Str jsUnique]>
                                   (<["total" := Str jsTotal]>
                                    (<["from" := Str from]>
                                     (<["to" := Str to]> ∅)))));
                ret_err := None;
                logged := log |}
      end
    end
  end.

End Analytics.

(** ** Concrete codecs, for evaluating the functions on examples *)

(** The JSON text of an array of integers, as [json.Marshal] writes it. *)
Definition json_ints (l : list Z) : result string :=
  Ok ("[" ++ String.concat "," (pretty <$> l) ++ "]")%string.

(** A decoder that knows the stored values of a table and rejects every
    other value. *)
Fixpoint json_table (tbl : list (bytes * apiRequest)) (v : bytes) : result apiRequest :=
  match tbl with
  | [] => Err "invalid character"
  | (v', r) :: tbl' =>
    if bool_decide (v = v') then Ok r else json_table tbl' v
  end.

(** ** Example data *)

(** 2024-03-15 12:00:00 UTC, read by a process whose local zone is UTC. *)
Definition example_now : Time := mkTime 1710504000 0 0.

(** 2024-03-10 23:30:00 UTC, read by a process two hours east of UTC, where
    the wall clock shows 01:30 of March 11. *)
Definition example_now_east : Time := mkTime 1710113400 0 7200.

Definition example_request (addr : string) (ts : Z) : apiRequest :=
  {| URL := "/api/contents?type=Post"; Method := "GET"; Origin := "";
     Proto := "HTTP/1.1"; RemoteAddr := addr; Timestamp := ts;
     External := false |}.

(** Stored values and their entries, told apart by their length. *)
Definition example_value (n : nat) : bytes := replicate (S n) Byte.x7b.
Definition example_entry (n : nat) : bytes * bytes :=
  (replicate (S n) Byte.x00, example_value n).

(** A request of 2024-03-02 01:00:00 UTC: one hour into the oldest day of
    the window of [example_now]. *)
Definition example_early : apiRequest :=
  example_request "10.0.0.1:4242" 1709341200000.

(** Two requests of one caller on 2024-03-05, at 08:00:00 and at 09:30:00
    UTC: day 3 of the window of [example_now]. *)
Definition example_morning : list apiRequest :=
  [example_request "10.0.0.7:5151" 1709625600000;
   example_request "10.0.0.7:5151" 1709631000000].

(** A request of 2024-02-29 18:00:00 UTC, before the window of
    [example_now]. *)
Definition example_old : apiRequest :=
  example_request "10.0.0.9:6060" 1709229600000.

(** The decoder for a store that holds the given requests, entry [n] for
    the [n]-th of them. *)
Definition example_decoder (rs : list apiRequest) : bytes -> result apiRequest :=
  json_table (zip (example_value <$> seq 0 (length rs)) rs).

Definition example_store (rs : list apiRequest) : list (bytes * bytes) :=
  example_entry <$> seq 0 (length rs).

(** What [ChartData] returns for the store of [example_morning]. *)
Definition example_returned : returned :=
  default (mkReturned None None [])
    (ChartData (example_decoder example_morning) json_ints example_now
       (Requests (example_store example_morning))).

Definition example_chart : gmap string value :=
  default ∅ (ret_data example_returned).

(** ** Notions used to state the properties *)

(** The value under key [k] of the map that a call returned. *)
Definition series (k : string) (o : option returned) : option value :=
  r ← o; m ← ret_data r; m !! k.

(** The seconds, since the epoch, of day boundary [j] of a window that ends
    with the day [d]: [d] itself for [j = 13], one day less per step down. *)
Definition day_boundary (d : Time) (j : Z) : Z :=
  sec d - (13 - j) * secondsPerDay.

(** Day boundary [j] of the window that a call at [now] builds. *)
Abbreviation boundary now j := (day_boundary (today now) j).

(** The array [times] after the first loop, oldest boundary first. *)
Definition boundaries (d : Time) : list Time :=
  (fun j => AddHours d (24 * (13 - j) * -1)) <$> seqZ 0 14.

(** UTC midnight of the day (in UTC) that contains the instant [t]. *)
Definition utc_midnight (t : Time) : Z := sec t / secondsPerDay * secondsPerDay.

(** 00:00 UTC of the calendar date that the clock reading [t] shows in its
    own zone.  For a reading in UTC this is [utc_midnight t]. *)
Definition wall_midnight (t : Time) : Z := wall_days t * secondsPerDay.

(** One request for each of the last 14 days (in UTC) up to the instant [t],
    oldest first, each of its own caller and stamped exactly at UTC midnight
    of its day: request [j] is of the day [13 - j] days before that of [t]. *)
Definition midnight_requests (t : Time) : list apiRequest :=
  (fun j => example_request ("10.0.0." ++ pretty j ++ ":4242")%string
              ((utc_midnight t - (13 - j) * secondsPerDay) * 1000))
    <$> seqZ 0 14.

(** The UTC midnights from 2024-03-02 to 2024-03-15, the last 14 days of
    [example_now]. *)
Definition example_midnights : list apiRequest := midnight_requests example_now.

(** The UTC midnights from 2024-02-26 to 2024-03-10, the last 14 days of
    [example_now_east]. *)
Definition example_midnights_east : list apiRequest :=
  midnight_requests example_now_east.

(** The arrays of the aggregation before the first request. *)
Definition zero_counters : counters :=
  {| total := replicate 14 0; unique := replicate 14 0;
     ips := replicate 14 (∅ : gset string) |}.

(** The three arrays have their 14 entries. *)
Definition wf (c : counters) : Prop :=
  length (total c) = 14%nat /\ length (unique c) = 14%nat /\
  length (ips c) = 14%nat.

(** Bucket [k] of the three arrays. *)
Definition bucket (c : counters) (k : nat) : option (Z * Z * gset string) :=
  t ← total c !! k; u ← unique c !! k; s ← ips c !! k; Some (t, u, s).

(** The buckets for which the inner loop does its record keeping, in the
    order in which it does so: the control flow of [check_request] alone. *)
Fixpoint visited (times : list Time) (ts : Time) (js : list Z) : list Z :=
  match js with
  | [] => []
  | j :: js' =>
    match index times j with
    | None => []
    | Some tj =>
      if (j =? Z.of_nat (length times) - 1) && (After ts tj || Equal ts tj) then [j]
      else if Equal ts tj then [j]
      else if Before ts tj then
        if j =? 0 then [] else (j - 1) :: visited times ts js'
      else visited times ts js'
    end
  end.

(** The record keeping for a list of buckets, one after the other. *)
Fixpoint keep_all (js : list Z) (addr : string) (c : counters) : option counters :=
  match js with
  | [] => Some c
  | j :: js' => c' ← record_keeping j addr c; keep_all js' addr c'
  end.

(** Request [r] is counted into bucket [j] of the window that ends with
    the day [d]: the inner loop does the record keeping of bucket [j] for
    it. *)
Definition counted (d : Time) (j : Z) (r : apiRequest) : Prop :=
  j ∈ visited (boundaries d) (instant r) (range (boundaries d)).

#[global] Instance counted_dec d j r : Decision (counted d j r).
Proof. unfold counted. apply _. Defined.

(** The requests of [rs] counted into bucket [j], and their callers. *)
Definition hits (d : Time) (j : Z) (rs : list apiRequest) : list apiRequest :=
  filter (counted d j) rs.

Definition callers (d : Time) (j : Z) (rs : list apiRequest) : gset string :=
  list_to_set (RemoteAddr <$> hits d j rs).

(** The label of day boundary [j]. *)
Definition label (now : Time) (j : Z) : string :=
  Format_01_02 (mkTime (boundary now j) 0 0).

(** The labels of the 14 boundaries. *)
Definition labels (now : Time) : list string :=
  Format_01_02 <$> boundaries (today now).

(** The map that [ChartData] returns on success. *)
Definition chart (dates : list string) (jsUnique jsTotal from to : string)
  : gmap string value :=
  <["dates" := Strings dates]>
    (<["unique" := Str jsUnique]>
       (<["total" := Str jsTotal]>
          (<["from" := Str from]> (<["to" := Str to]> ∅)))).

(** What [ChartData] returns once the aggregation has ended with the arrays
    [c]: the two encodings and the map, or the error of an encoding. *)
Definition encode (json_Marshal : list Z -> result string) (now : Time)
  (log : list string) (c : counters) : returned :=
  match json_Marshal (unique c) with
  | Err err => mkReturned None (Some err) log
  | Ok jsUnique =>
    match json_Marshal (total c) with
    | Err err => mkReturned None (Some err) log
    | Ok jsTotal =>
      mkReturned
        (Some (chart (labels now) jsUnique jsTotal (label now 0) (label now 13)))
        None log
    end
  end.

(** The requests that the read of the bucket appends to [requests], and the
    lines that it logs. *)
Definition decoded (json_Unmarshal : bytes -> result apiRequest)
  (entries : list (bytes * bytes)) : list apiRequest :=
  fst (ForEach json_Unmarshal entries ([], [])).

Definition decode_log (json_Unmarshal : bytes -> result apiRequest)
  (entries : list (bytes * bytes)) : list string :=
  snd (ForEach json_Unmarshal entries ([], [])).

(** ** Further notions and examples *)

(** What the record keeping for the caller [addr] makes of a bucket. *)
Definition bump (addr : string) (b : Z * Z * gset string) : Z * Z * gset string :=
  (GoInt.incr b.1.1,
   if decide (addr ∈ b.2) then b.1.2 else GoInt.incr b.1.2,
   {[addr]} ∪ b.2).

(** What the function given to [b.ForEach] makes of one entry: a request,
    or a line of the log. *)
Definition entry_request (json_Unmarshal : bytes -> result apiRequest)
  (kv : bytes * bytes) : option apiRequest :=
  match json_Unmarshal (snd kv) with
  | Ok r => Some r
  | Err _ => None
  end.

Definition entry_failure (json_Unmarshal : bytes -> result apiRequest)
  (kv : bytes * bytes) : option string :=
  match json_Unmarshal (snd kv) with
  | Ok _ => None
  | Err err => Some (Println "Error decoding json from analytics db:" err)
  end.

(** Requests of the caller 10.0.0.3:8080: at the reading of [example_now],
    exactly on boundary 5 of its window (2024-03-07 00:00:00 UTC), and at
    01:00:00 UTC of 2024-03-14, the day before [example_now]. *)
Definition example_at_now : apiRequest :=
  example_request "10.0.0.3:8080" 1710504000000.
Definition example_on_boundary : apiRequest :=
  example_request "10.0.0.3:8080" 1709769600000.
Definition example_yesterday : apiRequest :=
  example_request "10.0.0.3:8080" 1710378000000.

(** Two entries that the decoder of [example_morning] rejects. *)
Definition example_garbage : list (bytes * bytes) :=
  [([Byte.x01], [Byte.x21]); ([Byte.x02], [])].

(** The reading of [example_now] with its nanoseconds, the request it comes
    with, and a reading of the next day (2024-03-15 23:00:00 UTC, in a zone
    two hours east of UTC, where the wall clock shows 01:00 of March 16). *)
Definition example_reading : Time := mkTime 1710504000 987654321 0.
Definition example_http : Request :=
  mkRequest "/api/contents" "/api/contents?type=Post" "GET" "" "HTTP/1.1"
    "10.0.0.1:4242".
Definition example_next_day : Time := mkTime 1710543600 0 7200.

(** ** The calendar *)

Lemma yoe_bound doe :
  0 <= doe < 146097 ->
  0 <= (doe - doe / 1460 + doe / 36524 - doe / 146096) / 365 <= 399.
Proof. intros H. Z.div_mod_to_equations. lia. Qed.

Lemma doy_bound doe :
  0 <= doe < 146097 ->
  let yoe := (doe - doe / 1460 + doe / 36524 - doe / 146096) / 365 in
  0 <= doe - (365 * yoe + yoe / 4 - yoe / 100) <= 365.
Proof. intros H yoe. subst yoe. Z.div_mod_to_equations. lia. Qed.

(** The civil date of a day number is a date (month 1..12, day 1..31) and
    [days_from_civil] maps it back to the day number. *)
Lemma civil_from_days_spec z :
  let '(y, m, d) := civil_from_days z in
  1 <= m <= 12 /\ 1 <= d <= 31 /\ days_from_civil y m d = z.
Proof.
  unfold civil_from_days.
  set (z' := z + 719468).
  set (era := z' / 146097).
  set (doe := z' - era * 146097).
  assert (Hdoe : 0 <= doe < 146097).
  { subst doe era. Z.div_mod_to_equations. lia. }
  pose proof (yoe_bound doe Hdoe) as Hyoe.
  pose proof (doy_bound doe Hdoe) as Hdoy. cbv zeta in Hdoy.
  set (yoe := (doe - doe / 1460 + doe / 36524 - doe / 146096) / 365) in *.
  set (doy := doe - (365 * yoe + yoe / 4 - yoe / 100)) in *.
  set (mp := (5 * doy + 2) / 153).
  assert (Hmp : 0 <= mp <= 11) by (subst mp; Z.div_mod_to_equations; lia).
  set (d := doy - (153 * mp + 2) / 5 + 1).
  assert (Hd : 1 <= d <= 31) by (subst d mp; Z.div_mod_to_equations; lia).
  set (m := if mp <? 10 then mp + 3 else mp - 9).
  assert (Hm : 1 <= m <= 12 /\ (m - 1) / 12 = 0 /\ (m - 1) mod 12 + 1 = m
               /\ (if 2 <? m then m - 3 else m + 9) = mp
               /\ (m <=? 2) = negb (mp <? 10)).
  { subst m. destruct (Z.ltb_spec mp 10).
    - rewrite Z.div_small, Z.mod_small by lia.
      destruct (Z.ltb_spec 2 (mp + 3)), (Z.leb_spec (mp + 3) 2); simpl; lia.
    - rewrite Z.div_small, Z.mod_small by lia.
      destruct (Z.ltb_spec 2 (mp - 9)), (Z.leb_spec (mp - 9) 2); simpl; lia. }
  destruct Hm as (Hm1 & Hq & Hr & Hmp' & Hle).
  split; [exact Hm1|]. split; [exact Hd|].
  unfold days_from_civil. rewrite Hq, Hr, Hmp', Hle.
  assert (Hy : (if negb (mp <? 10)
                then (if negb (mp <? 10) then yoe + era * 400 + 1 else yoe + era * 400) + 0 - 1
                else (if negb (mp <? 10) then yoe + era * 400 + 1 else yoe + era * 400) + 0)
               = yoe + era * 400).
  { destruct (mp <? 10); simpl; lia. }
  cbv zeta. rewrite Hy.
  assert (He : (yoe + era * 400) / 400 = era).
  { rewrite Z.div_add by lia. rewrite Z.div_small; lia. }
  rewrite He. replace (yoe + era * 400 - era * 400) with yoe by lia.
  subst d doy doe z'. lia.
Qed.

(** [today] is 00:00 UTC of the day number that the wall clock of [now]
    shows. *)
Lemma today_sec now :
  sec (today now) = (sec now + zone now) / secondsPerDay * secondsPerDay.
Proof.
  unfold today, Date_UTC, Year, Month, Day.
  pose proof (civil_from_days_spec (wall_days now)) as H.
  destruct (civil_from_days (wall_days now)) as [[y m] d].
  destruct H as (_ & _ & H). cbn [fst snd sec]. rewrite H. reflexivity.
Qed.

Lemma today_nsec now : nsec (today now) = 0.
Proof. reflexivity. Qed.

Lemma today_zone now : zone (today now) = 0.
Proof. reflexivity. Qed.

(** ** [strings.HasPrefix] and [strings.Contains] *)

Lemma HasPrefix_spec s p :
  HasPrefix s p = true <-> exists t, s = (p ++ t)%string.
Proof.
  revert s. induction p as [|c p IH]; intros s; simpl.
  - split; [intros _; exists s; reflexivity | reflexivity].
  - destruct s as [|d s]; simpl.
    + split; [discriminate | intros [t Ht]; discriminate].
    + rewrite andb_true_iff, IH. split.
      * intros [Hc [t ->]]. apply Ascii.eqb_eq in Hc. subst. eauto.
      * intros [t Ht]. injection Ht as -> ->. split; [apply Ascii.eqb_refl | eauto].
Qed.

Lemma Contains_spec s sub :
  Contains s sub = true <-> exists pre post, s = (pre ++ sub ++ post)%string.
Proof.
  induction s as [|d s IH]; simpl.
  - rewrite orb_false_r, HasPrefix_spec. split.
    + intros [t Ht]. exists EmptyString, t. exact Ht.
    + intros (pre & post & H). destruct pre; simpl in H.
      * eauto.
      * discriminate.
  - rewrite orb_true_iff, HasPrefix_spec, IH. split.
    + intros [[t Ht] | (pre & post & Hs)].
      * exists EmptyString, t. exact Ht.
      * exists (String d pre), post. rewrite Hs. reflexivity.
    + intros (pre & post & H). destruct pre as [|e pre]; simpl in H.
      * left. eauto.
      * right. injection H as -> ->. eauto.
Qed.

(** ** Arrays *)

Lemma index_lookup {A : Type} (a : list A) (j : Z) :
  0 <= j < Z.of_nat (length a) -> index a j = a !! Z.to_nat j.
Proof.
  intros Hj. unfold index.
  destruct (Z.leb_spec 0 j), (Z.ltb_spec j (Z.of_nat (length a))); simpl; try lia.
  reflexivity.
Qed.

Lemma index_Some {A : Type} (a : list A) (j : Z) (x : A) :
  index a j = Some x -> 0 <= j < Z.of_nat (length a) /\ a !! Z.to_nat j = Some x.
Proof.
  unfold index.
  destruct (Z.leb_spec 0 j), (Z.ltb_spec j (Z.of_nat (length a))); simpl;
    try discriminate.
  intros Heq. split; [lia | exact Heq].
Qed.

Lemma index_of_nat {A : Type} (a : list A) (k : nat) :
  (k < length a)%nat -> index a (Z.of_nat k) = a !! k.
Proof. intros Hk. rewrite index_lookup by lia. by rewrite Nat2Z.id. Qed.

Lemma assign_insert {A : Type} (a : list A) (j : Z) (x : A) :
  0 <= j < Z.of_nat (length a) -> assign a j x = Some (<[Z.to_nat j := x]> a).
Proof.
  intros Hj. unfold assign.
  destruct (Z.leb_spec 0 j), (Z.ltb_spec j (Z.of_nat (length a))); simpl; try lia.
  reflexivity.
Qed.

(** ** The day boundaries *)

(** The first loop never leaves its arrays: it fills [times] with the 14
    boundaries and [dates] with their labels. *)
Lemma fill_days_boundaries d :
  fill_days d (range (replicate 14 zeroTime)) (replicate 14 zeroTime)
    (replicate 14 EmptyString)
  = Some (boundaries d, Format_01_02 <$> boundaries d).
Proof. reflexivity. Qed.

Lemma length_boundaries d : length (boundaries d) = 14%nat.
Proof. reflexivity. Qed.

Lemma range_boundaries d : range (boundaries d) = seqZ 0 14.
Proof. reflexivity. Qed.

Lemma lookup_boundaries d (k : nat) :
  (k < 14)%nat ->
  boundaries d !! k
  = Some (mkTime (sec d - (13 - Z.of_nat k) * secondsPerDay) (nsec d) (zone d)).
Proof.
  intros Hk. unfold boundaries. rewrite list_lookup_fmap.
  rewrite lookup_seqZ_lt by lia. simpl. unfold AddHours, secondsPerDay.
  f_equal. f_equal. lia.
Qed.

Lemma index_boundaries d (j : Z) :
  0 <= j < 14 ->
  index (boundaries d) j
  = Some (mkTime (sec d - (13 - j) * secondsPerDay) (nsec d) (zone d)).
Proof.
  intros Hj. rewrite index_lookup by (rewrite length_boundaries; lia).
  rewrite lookup_boundaries by lia. rewrite Z2Nat.id by lia. reflexivity.
Qed.

(** ** The record keeping of one bucket *)

Lemma wf_zero : wf zero_counters.
Proof. repeat split. Qed.

Lemma bucket_zero (k : nat) :
  (k < 14)%nat -> bucket zero_counters k = Some (0, 0, ∅).
Proof.
  intros Hk. unfold bucket, zero_counters. cbn [total unique ips].
  rewrite !lookup_replicate_2 by lia. reflexivity.
Qed.

Lemma bucket_is_Some c (k : nat) :
  wf c -> (k < 14)%nat -> exists t u s, bucket c k = Some (t, u, s).
Proof.
  intros (Ht & Hu & Hs) Hk. unfold bucket.
  destruct (lookup_lt_is_Some_2 (total c) k) as [t ->]; [lia|].
  destruct (lookup_lt_is_Some_2 (unique c) k) as [u ->]; [lia|].
  destruct (lookup_lt_is_Some_2 (ips c) k) as [s ->]; [lia|].
  simpl. eauto.
Qed.

Lemma bucket_Some c k t u s :
  bucket c k = Some (t, u, s) ->
  total c !! k = Some t /\ unique c !! k = Some u /\ ips c !! k = Some s.
Proof.
  unfold bucket. intros H.
  destruct (total c !! k); simpl in H; [|discriminate].
  destruct (unique c !! k); simpl in H; [|discriminate].
  destruct (ips c !! k); simpl in H; [|discriminate].
  by injection H as -> -> ->.
Qed.

(** What [record_keeping] does to bucket [j] and to the other buckets.  It
    never fails on a bucket of the arrays. *)
Lemma record_keeping_spec (j : Z) (addr : string) (c : counters) :
  wf c -> 0 <= j < 14 ->
  exists c', record_keeping j addr c = Some c' /\ wf c' /\
    forall k : nat, (k < 14)%nat ->
      bucket c' k =
        if decide (Z.of_nat k = j) then
          '(t, u, s) ← bucket c k;
          Some (GoInt.incr t,
                if decide (addr ∈ s) then u else GoInt.incr u,
                {[addr]} ∪ s)
        else bucket c k.
Proof.
  intros Hwf Hj. pose proof Hwf as (Ht & Hu & Hs).
  destruct (bucket_is_Some c (Z.to_nat j) Hwf ltac:(lia)) as (t & u & s & Hb).
  destruct (bucket_Some _ _ _ _ _ Hb) as (Hlt & Hlu & Hls).
  unfold record_keeping.
  rewrite (index_lookup (total c)), Hlt by lia. simpl.
  rewrite assign_insert by lia. simpl.
  rewrite (index_lookup (ips c)), Hls by lia. simpl.
  destruct (decide (addr ∈ s)) as [Hin|Hnin].
  - eexists. split; [reflexivity|]. split.
    + unfold wf. simpl. by rewrite length_insert.
    + intros k Hk. unfold bucket at 1. simpl.
      destruct (decide (Z.of_nat k = j)) as [Heq|Hne].
      * assert (Hk' : Z.to_nat j = k) by lia.
        rewrite Hk' in Hb, Hlu, Hls |- *. rewrite list_lookup_insert_eq by lia.
        rewrite Hb, Hlu, Hls. simpl. rewrite decide_True by done.
        do 2 f_equal. symmetry. apply subseteq_union_1_L.
        by apply singleton_subseteq_l.
      * rewrite list_lookup_insert_ne by lia. reflexivity.
  - rewrite (index_lookup (unique c)), Hlu by lia. simpl.
    rewrite !assign_insert by lia. simpl.
    eexists. split; [reflexivity|]. split.
    + unfold wf. simpl. by rewrite !length_insert.
    + intros k Hk. unfold bucket at 1. simpl.
      destruct (decide (Z.of_nat k = j)) as [Heq|Hne].
      * assert (Hk' : Z.to_nat j = k) by lia.
        rewrite Hk' in Hb |- *. rewrite !list_lookup_insert_eq by lia.
        rewrite Hb. simpl. rewrite decide_False by done. reflexivity.
      * rewrite !list_lookup_insert_ne by lia. reflexivity.
Qed.

Lemma keep_all_spec (js : list Z) (addr : string) (c : counters) :
  wf c -> NoDup js -> (forall j, j ∈ js -> 0 <= j < 14) ->
  exists c', keep_all js addr c = Some c' /\ wf c' /\
    forall k : nat, (k < 14)%nat ->
      bucket c' k =
        if decide (Z.of_nat k ∈ js) then
          '(t, u, s) ← bucket c k;
          Some (GoInt.incr t,
                if decide (addr ∈ s) then u else GoInt.incr u,
                {[addr]} ∪ s)
        else bucket c k.
Proof.
  revert c. induction js as [|j js IH]; intros c Hwf Hnd Hin.
  - exists c. split; [reflexivity|]. split; [exact Hwf|].
    intros k Hk. rewrite decide_False; [reflexivity | apply not_elem_of_nil].
  - apply NoDup_cons in Hnd as [Hj Hnd].
    destruct (record_keeping_spec j addr c Hwf) as (c1 & Hrk & Hwf1 & Hb1).
    { apply Hin. left. }
    destruct (IH c1 Hwf1 Hnd) as (c' & Hka & Hwf' & Hb').
    { intros x Hx. apply Hin. by right. }
    exists c'. simpl. rewrite Hrk. simpl. split; [exact Hka|]. split; [exact Hwf'|].
    intros k Hk. rewrite (Hb' k Hk), (Hb1 k Hk).
    destruct (decide (Z.of_nat k = j)) as [Heq|Hne];
      destruct (decide (Z.of_nat k ∈ js)) as [Hkjs|Hkjs];
      destruct (decide (Z.of_nat k ∈ j :: js)) as [Hc|Hc];
      try reflexivity; exfalso.
    + apply Hj. by rewrite <- Heq.
    + apply Hj. by rewrite <- Heq.
    + apply Hc. rewrite Heq. left.
    + apply Hc. by right.
    + apply elem_of_cons in Hc as [?|?]; congruence.
Qed.

(** ** The inner loop *)

(** The inner loop is the record keeping of the buckets it visits. *)
Lemma check_request_visited times r js c :
  (forall j, j ∈ js -> 0 <= j < Z.of_nat (length times)) ->
  check_request times r js c
  = keep_all (visited times (instant r) js) (RemoteAddr r) c.
Proof.
  revert c. induction js as [|j js IH]; intros c Hin; [reflexivity|].
  assert (Hj : 0 <= j < Z.of_nat (length times)) by (apply Hin; left).
  assert (Hjs : forall x, x ∈ js -> 0 <= x < Z.of_nat (length times)).
  { intros x Hx. apply Hin. by right. }
  cbn [check_request visited].
  destruct (lookup_lt_is_Some_2 times (Z.to_nat j)) as [tj Htj]; [lia|].
  rewrite (index_lookup times j Hj), Htj. cbn [mbind option_bind].
  destruct ((j =? Z.of_nat (length times) - 1)
            && (After (instant r) tj || Equal (instant r) tj)).
  { cbn [keep_all]. by destruct (record_keeping j (RemoteAddr r) c). }
  destruct (Equal (instant r) tj).
  { cbn [keep_all]. by destruct (record_keeping j (RemoteAddr r) c). }
  destruct (Before (instant r) tj); [|by apply IH].
  destruct (j =? 0); [reflexivity|].
  cbn [keep_all].
  destruct (record_keeping (j - 1) (RemoteAddr r) c) as [c1|]; [|reflexivity].
  cbn [mbind option_bind]. by apply IH.
Qed.

(** The visited buckets come in increasing order, each at most once. *)
Lemma visited_sublist times ts (n : nat) (i : Z) :
  visited times ts (seqZ i (Z.of_nat n)) `sublist_of` seqZ (i - 1) (Z.of_nat (S n)).
Proof.
  revert i. induction n as [|n IH]; intros i.
  - rewrite seqZ_nil by lia. apply sublist_nil_l.
  - rewrite (seqZ_cons i) by lia. rewrite (seqZ_cons (i - 1)) by lia.
    replace (Z.pred (Z.of_nat (S n))) with (Z.of_nat n) by lia.
    replace (Z.pred (Z.of_nat (S (S n)))) with (Z.of_nat (S n)) by lia.
    replace (Z.succ (i - 1)) with i by lia.
    specialize (IH (Z.succ i)). replace (Z.succ i - 1) with i in IH by lia.
    cbn [visited]. destruct (index times i) as [tj|]; [|apply sublist_nil_l].
    assert (Hi : [i] `sublist_of` (i - 1) :: seqZ i (Z.of_nat (S n))).
    { apply sublist_cons. rewrite (seqZ_cons i) by lia.
      apply sublist_skip, sublist_nil_l. }
    destruct (_ && _); [exact Hi|].
    destruct (Equal ts tj); [exact Hi|].
    destruct (Before ts tj).
    + destruct (i =? 0); [apply sublist_nil_l|]. by apply sublist_skip.
    + by apply sublist_cons.
Qed.

Lemma visited_elem times ts js x :
  x ∈ visited times ts js -> x ∈ js \/ (x + 1 ∈ js /\ x + 1 <> 0).
Proof.
  induction js as [|j js IH]; cbn [visited]; [by intros ?%elem_of_nil|].
  destruct (index times j) as [tj|]; [|by intros ?%elem_of_nil].
  assert (Hj : x ∈ [j] -> x ∈ j :: js \/ (x + 1 ∈ j :: js /\ x + 1 <> 0)).
  { intros ->%list_elem_of_singleton. left. left. }
  destruct (_ && _); [exact Hj|].
  destruct (Equal ts tj); [exact Hj|].
  assert (Hrest : x ∈ visited times ts js ->
                  x ∈ j :: js \/ (x + 1 ∈ j :: js /\ x + 1 <> 0)).
  { intros [?|[? ?]]%IH; [left|right]; [|split]; by try right. }
  destruct (Before ts tj); [|exact Hrest].
  destruct (Z.eqb_spec j 0) as [->|Hne]; [by intros ?%elem_of_nil|].
  intros [->|Hx]%elem_of_cons; [|by apply Hrest].
  right. replace (j - 1 + 1) with j by lia. split; [left | exact Hne].
Qed.

Lemma visited_NoDup d ts : NoDup (visited (boundaries d) ts (seqZ 0 14)).
Proof.
  eapply sublist_NoDup; [apply (NoDup_seqZ (0 - 1) (Z.of_nat 15))|].
  apply (visited_sublist _ _ 14 0).
Qed.

Lemma visited_bounds d ts x :
  x ∈ visited (boundaries d) ts (seqZ 0 14) -> 0 <= x < 14.
Proof.
  intros [Hx|[Hx Hne]]%visited_elem; apply elem_of_seqZ in Hx; lia.
Qed.

(** *** The buckets a request visits, by the place of its instant *)

Section Visited.

(** [d] is the [today] of the call (a whole second), [s] the seconds of the
    request's instant. *)
Variable d : Time.
Hypothesis d_nsec : nsec d = 0.
Variable s : Z.

Local Abbreviation B := (day_boundary d).

(** One turn of the inner loop at index [i]. *)
Lemma visited_step (i n : Z) :
  0 <= i < 14 -> 0 < n ->
  visited (boundaries d) (FromUnix s) (seqZ i n)
  = if (i =? 13) && ((B i <? s) || (s =? B i)) then [i]
    else if s =? B i then [i]
    else if s <? B i then
      if i =? 0 then []
      else (i - 1) :: visited (boundaries d) (FromUnix s) (seqZ (i + 1) (n - 1))
    else visited (boundaries d) (FromUnix s) (seqZ (i + 1) (n - 1)).
Proof.
  intros Hi Hn. rewrite (seqZ_cons i n) by lia. cbn [visited].
  rewrite index_boundaries by lia. rewrite length_boundaries, d_nsec.
  unfold After, Before, Equal, FromUnix. cbn [sec nsec].
  fold (day_boundary d i). replace (Z.of_nat 14 - 1) with 13 by lia.
  replace (Z.succ i) with (i + 1) by lia. replace (Z.pred n) with (n - 1) by lia.
  change (0 <? 0) with false. change (0 =? 0) with true.
  rewrite !andb_false_r, !andb_true_r, !orb_false_r. reflexivity.
Qed.

(** Boundaries that lie before the instant are passed over. *)
Lemma visited_skip (n : nat) (i m : Z) :
  0 <= i -> 0 < m -> i + Z.of_nat n + m = 14 ->
  (forall j, i <= j < i + Z.of_nat n -> B j < s) ->
  visited (boundaries d) (FromUnix s) (seqZ i (Z.of_nat n + m))
  = visited (boundaries d) (FromUnix s) (seqZ (i + Z.of_nat n) m).
Proof.
  revert i. induction n as [|n IH]; intros i Hi Hm Hsum Hlt.
  - f_equal. f_equal; lia.
  - rewrite visited_step by lia.
    assert (HB : B i < s) by (apply Hlt; lia).
    destruct (Z.eqb_spec i 13); [lia|]. cbn [andb].
    destruct (Z.eqb_spec s (B i)); [lia|].
    destruct (Z.ltb_spec s (B i)); [lia|].
    replace (Z.of_nat (S n) + m - 1) with (Z.of_nat n + m) by lia.
    rewrite IH by (try lia; intros j Hj; apply Hlt; lia).
    f_equal. f_equal. lia.
Qed.

(** Once the instant lies before a boundary, it lies before every later
    one, and the loop goes on: each later turn counts the request again,
    into the bucket before its index. *)
Lemma visited_fall (n : nat) (i : Z) :
  1 <= i -> i + Z.of_nat n = 14 -> s < B i ->
  visited (boundaries d) (FromUnix s) (seqZ i (Z.of_nat n))
  = seqZ (i - 1) (Z.of_nat n).
Proof.
  revert i. induction n as [|n IH]; intros i Hi Hsum Hlt.
  - by rewrite !seqZ_nil by lia.
  - rewrite visited_step by lia.
    destruct (Z.ltb_spec (B i) s); [lia|].
    destruct (Z.eqb_spec s (B i)); [lia|].
    rewrite andb_false_r.
    destruct (Z.ltb_spec s (B i)); [|lia].
    destruct (Z.eqb_spec i 0); [lia|].
    replace (Z.of_nat (S n) - 1) with (Z.of_nat n) by lia.
    rewrite IH by (try lia; unfold day_boundary, secondsPerDay in *; lia).
    rewrite (seqZ_cons (i - 1)) by lia. f_equal. f_equal; lia.
Qed.

Lemma visited_hit (i n : Z) :
  0 <= i < 14 -> 0 < n -> s = B i ->
  visited (boundaries d) (FromUnix s) (seqZ i n) = [i].
Proof.
  intros Hi Hn Hs. rewrite visited_step by lia.
  destruct (Z.eqb_spec s (B i)); [|lia].
  rewrite orb_true_r. by destruct (i =? 13).
Qed.

(** A request older than the window is dropped at the first turn. *)
Lemma visited_before_window :
  s < B 0 -> visited (boundaries d) (FromUnix s) (seqZ 0 14) = [].
Proof.
  intros Hs. rewrite visited_step by lia. cbn [Z.eqb andb].
  destruct (Z.eqb_spec s (B 0)); [lia|].
  destruct (Z.ltb_spec s (B 0)); [reflexivity|lia].
Qed.

(** A request exactly on boundary [j] is counted into bucket [j] alone. *)
Lemma visited_at_boundary (j : Z) :
  0 <= j < 14 -> s = B j ->
  visited (boundaries d) (FromUnix s) (seqZ 0 14) = [j].
Proof.
  intros Hj Hs.
  replace (seqZ 0 14) with (seqZ 0 (Z.of_nat (Z.to_nat j) + (14 - j)))
    by (f_equal; lia).
  rewrite visited_skip; try lia.
  - rewrite Z2Nat.id by lia. apply visited_hit; lia.
  - intros k Hk. subst s. unfold day_boundary, secondsPerDay. lia.
Qed.

(** A request on or after [today] is counted into the last bucket alone. *)
Lemma visited_from_today :
  B 13 <= s -> visited (boundaries d) (FromUnix s) (seqZ 0 14) = [13].
Proof.
  intros Hs. change (seqZ 0 14) with (seqZ 0 (Z.of_nat 13 + 1)).
  rewrite visited_skip; try lia.
  - change (0 + Z.of_nat 13) with 13. rewrite visited_step by lia.
    cbn [Z.eqb andb].
    destruct (Z.ltb_spec (B 13) s); [reflexivity|].
    destruct (Z.eqb_spec s (B 13)); [reflexivity|lia].
  - intros k Hk. unfold day_boundary, secondsPerDay in *. lia.
Qed.

(** A request strictly between boundaries [j-1] and [j] is counted into
    bucket [j-1] and into every later bucket up to bucket 12. *)
Lemma visited_between (j : Z) :
  1 <= j <= 13 -> B (j - 1) < s < B j ->
  visited (boundaries d) (FromUnix s) (seqZ 0 14) = seqZ (j - 1) (14 - j).
Proof.
  intros Hj Hs.
  replace (seqZ 0 14) with (seqZ 0 (Z.of_nat (Z.to_nat j) + (14 - j)))
    by (f_equal; lia).
  rewrite visited_skip; try lia.
  - rewrite Z2Nat.id by lia.
    replace (14 - j) with (Z.of_nat (Z.to_nat (14 - j))) by lia.
    replace (0 + j) with j by lia.
    apply visited_fall; lia.
  - intros k Hk. unfold day_boundary, secondsPerDay in *. lia.
Qed.

End Visited.

(** ** The outer loop *)

(** The aggregation never leaves its arrays, whatever the requests. *)
Lemma check_request_total d r c :
  wf c ->
  exists c', check_request (boundaries d) r (range (boundaries d)) c = Some c'
             /\ wf c'.
Proof.
  intros Hwf. rewrite check_request_visited.
  - destruct (keep_all_spec (visited (boundaries d) (instant r) (seqZ 0 14))
                (RemoteAddr r) c Hwf) as (c' & Hc' & Hwf' & _).
    + apply visited_NoDup.
    + apply visited_bounds.
    + exists c'. by rewrite range_boundaries.
  - intros j Hj. rewrite range_boundaries in Hj. apply elem_of_seqZ in Hj.
    rewrite length_boundaries. lia.
Qed.

Lemma aggregate_total d rs c :
  wf c -> exists c', aggregate (boundaries d) rs c = Some c' /\ wf c'.
Proof.
  revert c. induction rs as [|r rs IH]; intros c Hwf; [by exists c|].
  destruct (check_request_total d r c Hwf) as (c1 & Hc1 & Hwf1).
  cbn [aggregate]. rewrite Hc1. cbn [mbind option_bind]. by apply IH.
Qed.

Lemma size_list_to_set_le (l : list string) :
  (size (list_to_set l : gset string) <= length l)%nat.
Proof.
  induction l as [|a l IH]; [done|].
  rewrite list_to_set_cons, size_union_alt, size_singleton. cbn [length].
  pose proof (subseteq_size (list_to_set l ∖ {[a]}) (list_to_set l : gset string)
                ltac:(by apply subseteq_difference_l)).
  lia.
Qed.

(** After the requests [done], bucket [k] holds the number of requests
    counted into it, the set of their callers and the size of that set.
    The counters do not wrap while there are at most [max_int] requests
    (a slice has no more elements than that). *)
Lemma aggregate_counts d rs done c :
  wf c ->
  (forall k : nat, (k < 14)%nat ->
     bucket c k = Some (Z.of_nat (length (hits d (Z.of_nat k) done)),
                        Z.of_nat (size (callers d (Z.of_nat k) done)),
                        callers d (Z.of_nat k) done)) ->
  Z.of_nat (length (done ++ rs)) <= GoInt.max_int ->
  exists c', aggregate (boundaries d) rs c = Some c' /\ wf c' /\
    forall k : nat, (k < 14)%nat ->
      bucket c' k = Some (Z.of_nat (length (hits d (Z.of_nat k) (done ++ rs))),
                          Z.of_nat (size (callers d (Z.of_nat k) (done ++ rs))),
                          callers d (Z.of_nat k) (done ++ rs)).
Proof.
  revert done c. induction rs as [|r rs IH]; intros done c Hwf Hb Hlen.
  { exists c. rewrite app_nil_r. split; [reflexivity|]. by split. }
  cbn [aggregate]. rewrite check_request_visited; last first.
  { intros j Hj. rewrite range_boundaries in Hj. apply elem_of_seqZ in Hj.
    rewrite length_boundaries. lia. }
  destruct (keep_all_spec (visited (boundaries d) (instant r) (range (boundaries d)))
              (RemoteAddr r) c Hwf) as (c1 & Hc1 & Hwf1 & Hb1).
  { apply visited_NoDup. }
  { apply visited_bounds. }
  rewrite Hc1. cbn [mbind option_bind].
  replace (done ++ r :: rs) with ((done ++ [r]) ++ rs) in * by by rewrite <- app_assoc.
  apply IH; [exact Hwf1| |exact Hlen].
  intros k Hk. rewrite (Hb1 k Hk), (Hb k Hk). unfold callers, hits.
  rewrite filter_app, filter_cons, filter_nil.
  rewrite !length_app in Hlen. cbn [length] in Hlen.
  pose proof (length_filter (counted d (Z.of_nat k)) done) as Hf.
  pose proof (size_list_to_set_le
                (RemoteAddr <$> filter (counted d (Z.of_nat k)) done)) as Hs.
  rewrite length_fmap in Hs. fold (counted d (Z.of_nat k) r).
  destruct (decide (counted d (Z.of_nat k) r)) as [Hin|Hnin];
    [|by rewrite app_nil_r].
  cbn [mbind option_bind]. rewrite fmap_app, length_app. cbn [fmap list_fmap length].
  rewrite list_to_set_app_L, list_to_set_cons, list_to_set_nil, union_empty_r_L.
  rewrite GoInt.incr_small by (unfold GoInt.max_int in *; lia).
  set (S0 := list_to_set (RemoteAddr <$> filter _ done) : gset string) in *.
  f_equal. f_equal; [f_equal; [lia|] | apply union_comm_L].
  destruct (decide (RemoteAddr r ∈ S0)) as [Ha|Ha].
  - rewrite (union_comm_L S0).
    by rewrite subseteq_union_1_L by (by apply singleton_subseteq_l).
  - rewrite GoInt.incr_small by (unfold GoInt.max_int in *; lia).
    rewrite size_union, size_singleton by (by apply disjoint_singleton_r). lia.
Qed.

(** ** Which requests a bucket counts *)

Section Counted.

Variable d : Time.
Hypothesis d_nsec : nsec d = 0.
Variable r : apiRequest.

Local Abbreviation s := (sec (instant r)).

Lemma counted_before_window (j : Z) :
  s < day_boundary d 0 -> ~ counted d j r.
Proof.
  intros Hs. unfold counted. rewrite range_boundaries.
  change (instant r) with (FromUnix s).
  rewrite visited_before_window by done. apply not_elem_of_nil.
Qed.

Lemma counted_at_boundary (i j : Z) :
  0 <= i < 14 -> s = day_boundary d i -> counted d j r <-> j = i.
Proof.
  intros Hi Hs. unfold counted. rewrite range_boundaries.
  change (instant r) with (FromUnix s).
  rewrite (visited_at_boundary d d_nsec s i) by done.
  apply list_elem_of_singleton.
Qed.

Lemma counted_from_today (j : Z) :
  day_boundary d 13 <= s -> counted d j r <-> j = 13.
Proof.
  intros Hs. unfold counted. rewrite range_boundaries.
  change (instant r) with (FromUnix s).
  rewrite visited_from_today by done. apply list_elem_of_singleton.
Qed.

(** A request strictly between two boundaries is counted into the day it
    belongs to and into every later day but the last. *)
Lemma counted_between (i j : Z) :
  1 <= i <= 13 -> day_boundary d (i - 1) < s < day_boundary d i ->
  counted d j r <-> i - 1 <= j <= 12.
Proof.
  intros Hi Hs. unfold counted. rewrite range_boundaries.
  change (instant r) with (FromUnix s).
  rewrite (visited_between d d_nsec s i) by done.
  rewrite elem_of_seqZ. lia.
Qed.

End Counted.

Lemma aggregate_app times rs1 rs2 c :
  aggregate times (rs1 ++ rs2) c
  = aggregate times rs1 c ≫= aggregate times rs2.
Proof.
  revert c. induction rs1 as [|r rs1 IH]; intros c; [reflexivity|].
  cbn [app aggregate].
  destruct (check_request times r (range times) c) as [c1|]; [apply IH|reflexivity].
Qed.

(** A request whose turn leaves the arrays as they are can be left out. *)
Lemma aggregate_without times rs1 r rs2 c :
  (forall c', check_request times r (range times) c' = Some c') ->
  aggregate times (rs1 ++ r :: rs2) c = aggregate times (rs1 ++ rs2) c.
Proof.
  intros Hr. rewrite !aggregate_app.
  destruct (aggregate times rs1 c) as [c1|]; [|reflexivity].
  cbn [mbind option_bind aggregate]. by rewrite Hr.
Qed.

(** The instant of a request stamped at or after the epoch: its whole
    seconds. *)
Lemma instant_nonneg r :
  0 <= Timestamp r -> sec (instant r) = Timestamp r / 1000.
Proof.
  intros H. unfold instant, GoInt.quo1000, FromUnix. cbn [sec].
  apply Z.quot_div_nonneg; lia.
Qed.

Lemma instant_whole_second r b :
  Timestamp r = b * 1000 -> sec (instant r) = b.
Proof.
  intros H. unfold instant, GoInt.quo1000, FromUnix. cbn [sec].
  rewrite H. apply Z.quot_mul. lia.
Qed.

(** ** The labels *)

Lemma labels_eq now : labels now = label now <$> seqZ 0 14.
Proof.
  unfold labels, boundaries. rewrite <- list_fmap_compose.
  apply list_fmap_ext. intros _ j _. cbn [compose].
  unfold label, day_boundary, AddHours, secondsPerDay.
  rewrite today_nsec, today_zone. do 2 f_equal. lia.
Qed.

Lemma length_labels now : length (labels now) = 14%nat.
Proof. unfold labels. by rewrite length_fmap, length_boundaries. Qed.

Lemma lookup_labels now (k : nat) :
  (k < 14)%nat -> labels now !! k = Some (label now (Z.of_nat k)).
Proof.
  intros Hk. rewrite labels_eq, list_lookup_fmap, lookup_seqZ_lt by lia.
  reflexivity.
Qed.

(** The days of the boundaries are consecutive day numbers, and a label
    shows the month and the day of its boundary, two digits each. *)
Lemma label_month_day now (j : Z) :
  exists y m dd,
    civil_from_days (sec (today now) / secondsPerDay - (13 - j)) = (y, m, dd) /\
    1 <= m <= 12 /\ 1 <= dd <= 31 /\
    label now j = (pad2 m ++ "/" ++ pad2 dd)%string.
Proof.
  pose proof (civil_from_days_spec (sec (today now) / secondsPerDay - (13 - j))) as H.
  destruct (civil_from_days _) as [[y m] dd] eqn:E.
  destruct H as (Hm & Hd & _). exists y, m, dd.
  split; [reflexivity|]. split; [exact Hm|]. split; [exact Hd|].
  unfold label, Format_01_02, Month, Day, wall_days, day_boundary.
  cbn [sec zone].
  replace ((sec (today now) - (13 - j) * secondsPerDay + 0) / secondsPerDay)
    with (sec (today now) / secondsPerDay - (13 - j)).
  - by rewrite E.
  - rewrite today_sec. unfold secondsPerDay.
    rewrite Z.div_mul by lia.
    replace ((sec now + zone now) / 86400 * 86400 - (13 - j) * 86400 + 0)
      with (((sec now + zone now) / 86400 - (13 - j)) * 86400) by lia.
    by rewrite Z.div_mul by lia.
Qed.

(** [pad2] writes a number below 100 as its two decimal digits. *)
Lemma pad2_decimal n :
  0 <= n < 100 ->
  exists a b,
    pad2 n = String a (String b EmptyString) /\
    Z.of_nat (nat_of_ascii a) = 48 + n / 10 /\
    Z.of_nat (nat_of_ascii b) = 48 + n mod 10.
Proof.
  intros Hn. exists (digit (n / 10)), (digit (n mod 10)).
  split; [reflexivity|]. unfold digit.
  assert (Hq : 0 <= n / 10 < 10) by (Z.div_mod_to_equations; lia).
  assert (Hr : 0 <= n mod 10 < 10) by (Z.div_mod_to_equations; lia).
  rewrite !nat_ascii_embedding by lia. lia.
Qed.

Lemma lookup_chart dates jsUnique jsTotal from to :
  chart dates jsUnique jsTotal from to !! "dates" = Some (Strings dates) /\
  chart dates jsUnique jsTotal from to !! "unique" = Some (Str jsUnique) /\
  chart dates jsUnique jsTotal from to !! "total" = Some (Str jsTotal) /\
  chart dates jsUnique jsTotal from to !! "from" = Some (Str from) /\
  chart dates jsUnique jsTotal from to !! "to" = Some (Str to).
Proof. unfold chart. repeat split; by simplify_map_eq. Qed.

(** ** Lists *)

Lemma filter_none {A : Type} (P : A -> Prop) `{!forall x, Decision (P x)}
  (l : list A) :
  (forall i x, l !! i = Some x -> ~ P x) -> filter P l = [].
Proof.
  induction l as [|x l IH]; intros Hall; [reflexivity|].
  rewrite filter_cons_False by (apply (Hall 0%nat); reflexivity).
  apply IH. intros i y Hy. by apply (Hall (S i)).
Qed.

(** If the elements that satisfy [P] are those at index [j0], a single
    element satisfies [P]. *)
Lemma filter_one_index {A : Type} (P : A -> Prop) `{!forall x, Decision (P x)}
  (l : list A) (j0 : nat) :
  (forall i x, l !! i = Some x -> P x <-> i = j0) -> (j0 < length l)%nat ->
  length (filter P l) = 1%nat.
Proof.
  revert j0. induction l as [|x l IH]; intros j0 Hall Hlen; cbn [length] in Hlen; [lia|].
  destruct j0 as [|j0].
  - rewrite filter_cons_True by (apply (Hall 0%nat); reflexivity).
    rewrite filter_none; [reflexivity|].
    intros i y Hy HP. apply (Hall (S i) y Hy) in HP. discriminate.
  - rewrite filter_cons_False.
    + apply (IH j0); [|lia]. intros i y Hy. rewrite (Hall (S i) y Hy). lia.
    + intros HP. apply (Hall 0%nat x) in HP; [discriminate|reflexivity].
Qed.

Lemma list_eq_replicate {A : Type} (l : list A) (n : nat) (x : A) :
  length l = n -> (forall k, (k < n)%nat -> l !! k = Some x) -> l = replicate n x.
Proof.
  intros Hlen H. apply list_eq. intros i.
  destruct (decide (i < n)%nat) as [Hi|Hi].
  - by rewrite H, lookup_replicate_2.
  - rewrite !lookup_ge_None_2; [done| |]; rewrite ?length_replicate; lia.
Qed.

(** ** Two cases of the aggregation *)

(** A request stamped (at or after the epoch) before the earliest boundary
    changes nothing and is counted nowhere. *)
Lemma before_window_untouched d r :
  nsec d = 0 -> 0 <= Timestamp r -> Timestamp r < day_boundary d 0 * 1000 ->
  (forall c, check_request (boundaries d) r (range (boundaries d)) c = Some c) /\
  (forall j, ~ counted d j r).
Proof.
  intros Hd H0 Hlt.
  assert (Hs : sec (instant r) < day_boundary d 0).
  { rewrite instant_nonneg by done. apply Z.div_lt_upper_bound; lia. }
  split.
  - intros c. rewrite check_request_visited.
    + rewrite range_boundaries.
      change (instant r) with (FromUnix (sec (instant r))).
      by rewrite visited_before_window.
    + intros j Hj. rewrite range_boundaries in Hj. apply elem_of_seqZ in Hj.
      rewrite length_boundaries. lia.
  - intros j. by apply counted_before_window.
Qed.

(** A request strictly between the boundaries [i-1] and [i] raises the
    total of bucket [i-1] and of every later bucket up to bucket 12: the
    branch for an earlier instant has no [continue CHECK_REQUEST]. *)
Lemma between_boundaries_totals d r c (i : Z) :
  nsec d = 0 -> wf c -> 1 <= i <= 13 ->
  day_boundary d (i - 1) < sec (instant r) < day_boundary d i ->
  exists c',
    check_request (boundaries d) r (range (boundaries d)) c = Some c' /\
    forall k : nat, (k < 14)%nat ->
      total c' !! k
      = if decide (i - 1 <= Z.of_nat k <= 12) then GoInt.incr <$> total c !! k
        else total c !! k.
Proof.
  intros Hd Hwf Hi Hs. rewrite check_request_visited; last first.
  { intros j Hj. rewrite range_boundaries in Hj. apply elem_of_seqZ in Hj.
    rewrite length_boundaries. lia. }
  rewrite range_boundaries. change (instant r) with (FromUnix (sec (instant r))).
  rewrite (visited_between d Hd _ i) by done.
  destruct (keep_all_spec (seqZ (i - 1) (14 - i)) (RemoteAddr r) c Hwf)
    as (c' & Hc' & Hwf' & Hb).
  { apply NoDup_seqZ. }
  { intros j Hj. apply elem_of_seqZ in Hj. lia. }
  exists c'. split; [exact Hc'|]. intros k Hk. specialize (Hb k Hk).
  destruct (bucket_is_Some c k Hwf Hk) as (t & u & s0 & Hck).
  destruct (bucket_is_Some c' k Hwf' Hk) as (t' & u' & s' & Hck').
  rewrite Hck, Hck' in Hb.
  apply bucket_Some in Hck as (-> & _). apply bucket_Some in Hck' as (-> & _).
  destruct (decide (Z.of_nat k ∈ seqZ (i - 1) (14 - i))) as [Hin|Hin];
    rewrite elem_of_seqZ in Hin.
  - rewrite decide_True by lia. cbn in Hb. by injection Hb as -> _ _.
  - rewrite decide_False by lia. by injection Hb as -> _ _.
Qed.

(** Fourteen requests, in any order, of which the one of day [j] is stamped
    exactly on boundary [j], leave a one in every bucket of [total] and of
    [unique]. *)
Lemma aggregate_one_per_midnight d rs0 rs :
  nsec d = 0 -> rs0 ≡ₚ rs -> length rs = 14%nat ->
  (forall (j : nat) r,
     rs !! j = Some r -> Timestamp r = day_boundary d (Z.of_nat j) * 1000) ->
  exists c,
    aggregate (boundaries d) rs0 zero_counters = Some c /\
    total c = replicate 14 1 /\ unique c = replicate 14 1.
Proof.
  intros Hd Hperm Hlen Hrs.
  assert (Hlen' : length rs0 = 14%nat) by by rewrite Hperm.
  destruct (aggregate_counts d rs0 [] zero_counters wf_zero)
    as (c & Hc & Hwf & Hb).
  { intros k Hk. by rewrite bucket_zero. }
  { cbn [app]. rewrite Hlen'. unfold GoInt.max_int. lia. }
  cbn [app] in Hc, Hb.
  assert (Hone : forall k : nat, (k < 14)%nat ->
            length (hits d (Z.of_nat k) rs0) = 1%nat).
  { intros k Hk. unfold hits. rewrite Hperm.
    apply (filter_one_index _ rs k); [|lia].
    intros i r Hr. pose proof (lookup_lt_Some _ _ _ Hr) as Hi.
    rewrite (counted_at_boundary d Hd r (Z.of_nat i)).
    - lia.
    - lia.
    - apply instant_whole_second. by apply Hrs. }
  assert (Hbucket : forall k : nat, (k < 14)%nat ->
            total c !! k = Some 1 /\ unique c !! k = Some 1).
  { intros k Hk. specialize (Hb k Hk). specialize (Hone k Hk).
    apply bucket_Some in Hb as (Hbt & Hbu & _). rewrite Hone in Hbt.
    unfold callers in Hbu.
    destruct (hits d (Z.of_nat k) rs0) as [|x [|y l]]; try discriminate.
    cbn [fmap list_fmap] in Hbu.
    rewrite list_to_set_cons, list_to_set_nil, union_empty_r_L, size_singleton in Hbu.
    by split. }
  destruct Hwf as (Ht & Hu & _).
  exists c. split; [exact Hc|]. split.
  - apply list_eq_replicate; [exact Ht|]. intros k Hk. by apply Hbucket.
  - apply list_eq_replicate; [exact Hu|]. intros k Hk. by apply Hbucket.
Qed.

(** ** Reading the bucket *)

Section Properties.

Variable json_Unmarshal : bytes -> result apiRequest.
Variable json_Marshal : list Z -> result string.

Local Abbreviation ForEach' := (ForEach json_Unmarshal).
Local Abbreviation decoded' := (decoded json_Unmarshal).
Local Abbreviation decode_log' := (decode_log json_Unmarshal).
Local Abbreviation ChartData' := (ChartData json_Unmarshal json_Marshal).

Lemma decode_entry_acc kv acc :
  decode_entry json_Unmarshal kv acc
  = (fst acc ++ fst (decode_entry json_Unmarshal kv ([], [])),
     snd acc ++ snd (decode_entry json_Unmarshal kv ([], []))).
Proof.
  unfold decode_entry. destruct (json_Unmarshal (snd kv)); cbn [fst snd].
  - by rewrite app_nil_r.
  - by rewrite app_nil_r.
Qed.

Lemma ForEach_acc es acc :
  ForEach' es acc = (fst acc ++ decoded' es, snd acc ++ decode_log' es).
Proof.
  unfold decoded, decode_log. revert acc.
  induction es as [|kv es IH]; intros acc; cbn [ForEach].
  - rewrite !app_nil_r. by destruct acc.
  - rewrite (IH (decode_entry _ kv acc)), (IH (decode_entry _ kv ([], []))).
    rewrite (decode_entry_acc kv acc). cbn [fst snd].
    by rewrite !app_assoc.
Qed.

Lemma ForEach_app es1 es2 acc :
  ForEach' (es1 ++ es2) acc = ForEach' es2 (ForEach' es1 acc).
Proof. revert acc. induction es1 as [|kv es1 IH]; intros acc; [reflexivity|apply IH]. Qed.

Lemma decoded_app es1 es2 : decoded' (es1 ++ es2) = decoded' es1 ++ decoded' es2.
Proof. unfold decoded at 1. by rewrite ForEach_app, (ForEach_acc es2). Qed.

Lemma decode_log_app es1 es2 :
  decode_log' (es1 ++ es2) = decode_log' es1 ++ decode_log' es2.
Proof. unfold decode_log at 1. by rewrite ForEach_app, (ForEach_acc es2). Qed.

Lemma decoded_cons kv es :
  decoded' (kv :: es)
  = match json_Unmarshal (snd kv) with
    | Ok r => r :: decoded' es
    | Err _ => decoded' es
    end.
Proof.
  unfold decoded at 1. cbn [ForEach]. rewrite ForEach_acc. unfold decode_entry.
  by destruct (json_Unmarshal (snd kv)).
Qed.

Lemma decode_log_cons kv es :
  decode_log' (kv :: es)
  = match json_Unmarshal (snd kv) with
    | Ok _ => decode_log' es
    | Err err => Println "Error decoding json from analytics db:" err :: decode_log' es
    end.
Proof.
  unfold decode_log at 1. cbn [ForEach]. rewrite ForEach_acc. unfold decode_entry.
  by destruct (json_Unmarshal (snd kv)).
Qed.

Lemma length_decoded es : (length (decoded' es) <= length es)%nat.
Proof.
  induction es as [|kv es IH]; [done|]. rewrite decoded_cons.
  destruct (json_Unmarshal (snd kv)); cbn [length]; lia.
Qed.

(** ** [ChartData] as a whole *)

(** With the store open, [ChartData] aggregates the decoded requests over
    the boundaries of [today], and returns what the encodings allow. *)
Lemma ChartData_Requests now es :
  ChartData' now (Requests es)
  = encode json_Marshal now (decode_log' es)
      <$> aggregate (boundaries (today now)) (decoded' es) zero_counters.
Proof.
  unfold ChartData. rewrite fill_days_boundaries. cbn [mbind option_bind].
  rewrite (ForEach_acc es ([], [])). cbn [fst snd app]. fold zero_counters.
  destruct (aggregate _ _ _) as [c|]; [|reflexivity].
  cbn [mbind option_bind fmap option_fmap option_map]. unfold encode.
  destruct (json_Marshal (unique c)) as [jsU|e]; [|reflexivity].
  destruct (json_Marshal (total c)) as [jsT|e]; [|reflexivity].
  change (Format_01_02 <$> boundaries (today now)) with (labels now).
  rewrite length_labels. change (Z.of_nat 14 - 1) with (Z.of_nat 13).
  rewrite (index_of_nat (labels now) 13) by (rewrite length_labels; lia).
  change 0 with (Z.of_nat 0) at 1.
  rewrite (index_of_nat (labels now) 0) by (rewrite length_labels; lia).
  rewrite !lookup_labels by lia. reflexivity.
Qed.

Lemma ChartData_NotOpen now err :
  ChartData' now (NotOpen err) = Some (mkReturned None (Some err) []).
Proof. unfold ChartData. by rewrite fill_days_boundaries. Qed.

(** ** The report *)

(** C8: every call of [ChartData] returns, and it returns either a map with
    the 14 labels, the encodings of the 14 unique counts and of the 14
    totals, and the first and last label, together with a nil error, or a
    nil map together with an error. *)
Theorem ChartData_complete_or_error now store :
  exists R, ChartData' now store = Some R /\
    ((ret_err R = None /\
      exists dates u t jsUnique jsTotal from to,
        ret_data R = Some (chart dates jsUnique jsTotal from to) /\
        length dates = 14%nat /\ length u = 14%nat /\ length t = 14%nat /\
        json_Marshal u = Ok jsUnique /\ json_Marshal t = Ok jsTotal /\
        dates !! 0%nat = Some from /\ dates !! 13%nat = Some to)
     \/ (ret_data R = None /\ exists err, ret_err R = Some err)).
Proof.
  destruct store as [err|es].
  { rewrite ChartData_NotOpen. eexists. split; [reflexivity|]. right. eauto. }
  rewrite ChartData_Requests.
  destruct (aggregate_total (today now) (decoded' es) zero_counters wf_zero)
    as (c & -> & Hwf).
  cbn [fmap option_fmap option_map]. eexists. split; [reflexivity|].
  unfold encode.
  destruct (json_Marshal (unique c)) as [jsU|e] eqn:HU; [|right; eauto].
  destruct (json_Marshal (total c)) as [jsT|e] eqn:HT; [|right; eauto].
  left. split; [reflexivity|].
  exists (labels now), (unique c), (total c), jsU, jsT, (label now 0), (label now 13).
  destruct Hwf as (Ht & Hu & _).
  rewrite length_labels, !lookup_labels by lia. by repeat split.
Qed.

(** C7: an entry whose value does not decode adds nothing to the requests
    read and one line to the log, between the lines of the entries before
    and after it, which are read all the same; the call returns the map
    and the error that it returns without that entry. *)
Theorem ChartData_skips_undecodable now pre k v post err :
  json_Unmarshal v = Err err ->
  decoded' (pre ++ (k, v) :: post) = decoded' (pre ++ post) /\
  decode_log' (pre ++ (k, v) :: post)
  = decode_log' pre
      ++ Println "Error decoding json from analytics db:" err :: decode_log' post /\
  exists R, ChartData' now (Requests (pre ++ post)) = Some R /\
    ChartData' now (Requests (pre ++ (k, v) :: post))
    = Some (mkReturned (ret_data R) (ret_err R)
              (decode_log' pre
                 ++ Println "Error decoding json from analytics db:" err
                 :: decode_log' post)).
Proof.
  intros Hv.
  assert (Hd : decoded' (pre ++ (k, v) :: post) = decoded' (pre ++ post)).
  { rewrite !decoded_app, decoded_cons. cbn [snd]. by rewrite Hv. }
  assert (Hl : decode_log' (pre ++ (k, v) :: post)
               = decode_log' pre
                   ++ Println "Error decoding json from analytics db:" err
                   :: decode_log' post).
  { rewrite decode_log_app, decode_log_cons. cbn [snd]. by rewrite Hv. }
  split; [exact Hd|]. split; [exact Hl|].
  rewrite !ChartData_Requests, Hd, Hl.
  destruct (aggregate_total (today now) (decoded' (pre ++ post)) zero_counters
              wf_zero) as (c & -> & _).
  cbn [fmap option_fmap option_map]. eexists. split; [reflexivity|].
  unfold encode.
  destruct (json_Marshal (unique c)); [|reflexivity].
  destruct (json_Marshal (total c)); reflexivity.
Qed.

(** C3: a request stamped (at or after the epoch) before the earliest
    boundary leaves the three arrays as they are, whatever they hold, with
    no index out of range; it is counted into no bucket; and the call
    returns what it returns without the entry of that request. *)
Theorem ChartData_excludes_older now r :
  0 <= Timestamp r -> Timestamp r < boundary now 0 * 1000 ->
  (forall c, check_request (boundaries (today now)) r
               (range (boundaries (today now))) c = Some c) /\
  (forall j, ~ counted (today now) j r) /\
  (forall pre k v post,
     json_Unmarshal v = Ok r ->
     ChartData' now (Requests (pre ++ (k, v) :: post))
     = ChartData' now (Requests (pre ++ post))).
Proof.
  intros H0 Hlt.
  destruct (before_window_untouched (today now) r (today_nsec now) H0 Hlt)
    as (Hc & Hn).
  split; [exact Hc|]. split; [exact Hn|].
  intros pre k v post Hv. rewrite !ChartData_Requests.
  rewrite !decode_log_app, decode_log_cons, !decoded_app, decoded_cons.
  cbn [snd]. rewrite Hv. by rewrite aggregate_without.
Qed.

(** The buckets after the aggregation of the requests read from the store,
    when there are at most [max_int] entries. *)
Lemma aggregate_decoded now es :
  Z.of_nat (length es) <= GoInt.max_int ->
  exists c,
    aggregate (boundaries (today now)) (decoded' es) zero_counters = Some c /\
    wf c /\
    forall k : nat, (k < 14)%nat ->
      bucket c k
      = Some (Z.of_nat (length (hits (today now) (Z.of_nat k) (decoded' es))),
              Z.of_nat (size (callers (today now) (Z.of_nat k) (decoded' es))),
              callers (today now) (Z.of_nat k) (decoded' es)).
Proof.
  intros Hlen.
  apply (aggregate_counts (today now) (decoded' es) [] zero_counters wf_zero).
  - intros k Hk. by rewrite bucket_zero.
  - cbn [app]. pose proof (length_decoded es). lia.
Qed.

(** C9: in the map that [ChartData] returns (for a store of at most
    [max_int] entries), the unique and total series are the encodings of
    two arrays in which, for each bucket [j] of 0..13, the unique count is
    at most the total, the total is the number of requests counted into
    bucket [j], and the unique count is the number of distinct callers
    ([RemoteAddr]) among those requests. *)
Theorem ChartData_unique_le_total now es R m :
  Z.of_nat (length es) <= GoInt.max_int ->
  ChartData' now (Requests es) = Some R -> ret_data R = Some m ->
  exists u t jsUnique jsTotal,
    json_Marshal u = Ok jsUnique /\ m !! "unique" = Some (Str jsUnique) /\
    json_Marshal t = Ok jsTotal /\ m !! "total" = Some (Str jsTotal) /\
    forall j, 0 <= j < 14 ->
      exists uj tj,
        index u j = Some uj /\ index t j = Some tj /\ uj <= tj /\
        tj = Z.of_nat (length (hits (today now) j (decoded' es))) /\
        uj = Z.of_nat (size (callers (today now) j (decoded' es))).
Proof.
  intros Hlen HR Hm.
  destruct (aggregate_decoded now es Hlen) as (c & Hc & Hwf & Hb).
  rewrite ChartData_Requests, Hc in HR.
  cbn [fmap option_fmap option_map] in HR. injection HR as <-.
  unfold encode in Hm.
  destruct (json_Marshal (unique c)) as [jsU|e] eqn:HU; [|discriminate].
  destruct (json_Marshal (total c)) as [jsT|e] eqn:HT; [|discriminate].
  cbn [ret_data] in Hm. injection Hm as <-.
  destruct (lookup_chart (labels now) jsU jsT (label now 0) (label now 13))
    as (_ & Hlu & Hlt & _).
  exists (unique c), (total c), jsU, jsT.
  split; [exact HU|]. split; [exact Hlu|]. split; [exact HT|]. split; [exact Hlt|].
  intros j Hj. destruct Hwf as (Ht & Hu & _).
  specialize (Hb (Z.to_nat j) ltac:(lia)). rewrite Z2Nat.id in Hb by lia.
  apply bucket_Some in Hb as (Hbt & Hbu & _).
  do 2 eexists.
  rewrite (index_lookup (unique c)), (index_lookup (total c)) by lia.
  split; [exact Hbu|]. split; [exact Hbt|]. split; [|done].
  unfold callers.
  pose proof (size_list_to_set_le (RemoteAddr <$> hits (today now) j (decoded' es)))
    as Hs.
  rewrite length_fmap in Hs. lia.
Qed.

(** C6, as the code has it: if the requests read from the store are, in
    some order, 14 requests of which the one of day [j] is stamped exactly
    at 00:00 UTC of the calendar date [13 - j] days before the date that the
    clock reading [now] shows in its own zone, each series of the returned
    map is the encoding of 14 ones: every day has total 1 and unique 1,
    oldest day first.  For a clock reading in UTC these stamps are the UTC
    midnights of the last 14 days.  (The callers need not differ.) *)
Theorem ChartData_one_per_midnight now es rs jsOnes :
  decoded' es ≡ₚ rs ->
  length rs = 14%nat ->
  (forall (j : nat) r,
     rs !! j = Some r ->
     Timestamp r = (wall_midnight now - (13 - Z.of_nat j) * secondsPerDay) * 1000) ->
  json_Marshal (replicate 14 1) = Ok jsOnes ->
  (zone now = 0 -> wall_midnight now = utc_midnight now) /\
  exists c m,
    aggregate (boundaries (today now)) (decoded' es) zero_counters = Some c /\
    total c = replicate 14 1 /\ unique c = replicate 14 1 /\
    ChartData' now (Requests es) = Some (mkReturned (Some m) None (decode_log' es)) /\
    m !! "total" = Some (Str jsOnes) /\ m !! "unique" = Some (Str jsOnes).
Proof.
  intros Hperm Hlen Hrs Hjs. split.
  { intros Hz. unfold wall_midnight, wall_days, utc_midnight.
    by rewrite Hz, Z.add_0_r. }
  assert (Hrs' : forall (j : nat) r,
            rs !! j = Some r -> Timestamp r = boundary now (Z.of_nat j) * 1000).
  { intros j r Hr. rewrite (Hrs j r Hr). unfold day_boundary.
    rewrite today_sec. reflexivity. }
  destruct (aggregate_one_per_midnight (today now) (decoded' es) rs
              (today_nsec now) Hperm Hlen Hrs') as (c & Hc & HT & HU).
  exists c. eexists. split; [exact Hc|]. split; [exact HT|]. split; [exact HU|].
  rewrite ChartData_Requests, Hc. cbn [fmap option_fmap option_map].
  unfold encode. rewrite HT, HU, Hjs.
  split; [reflexivity|].
  destruct (lookup_chart (labels now) jsOnes jsOnes (label now 0) (label now 13))
    as (_ & Hlu & Hlt & _).
  by split.
Qed.

(** C4, as the code has it: [today] is 00:00 UTC of the calendar day that
    the clock reading [now] shows in its own zone (which is UTC midnight of
    the current instant when that zone is UTC); the first loop builds
    exactly 14 boundaries, [today - 13 days] first and [today] last, one day
    apart, and 14 labels in the same order, each the two-digit month, a
    slash and the two-digit day of its boundary; and a returned map has
    these labels under "dates", the oldest under "from" and the newest
    under "to". *)
Theorem ChartData_window now :
  sec (today now) = (sec now + zone now) / secondsPerDay * secondsPerDay /\
  nsec (today now) = 0 /\ zone (today now) = 0 /\
  (zone now = 0 -> sec (today now) = utc_midnight now) /\
  exists times dates,
    fill_days (today now) (range (replicate 14 zeroTime))
      (replicate 14 zeroTime) (replicate 14 EmptyString) = Some (times, dates) /\
    length times = 14%nat /\ length dates = 14%nat /\
    (forall j, 0 <= j < 14 ->
       index times j
       = Some (mkTime (sec (today now) - (13 - j) * secondsPerDay) 0 0) /\
       exists y m dd,
         civil_from_days (sec (today now) / secondsPerDay - (13 - j)) = (y, m, dd) /\
         1 <= m <= 12 /\ 1 <= dd <= 31 /\
         index dates j = Some (pad2 m ++ "/" ++ pad2 dd)%string) /\
    (forall store R m,
       ChartData' now store = Some R -> ret_data R = Some m ->
       m !! "dates" = Some (Strings dates) /\
       m !! "from" = Str <$> dates !! 0%nat /\
       m !! "to" = Str <$> dates !! 13%nat).
Proof.
  split; [apply today_sec|]. split; [reflexivity|]. split; [reflexivity|]. split.
  { intros Hz. rewrite today_sec, Hz. unfold utc_midnight. by rewrite Z.add_0_r. }
  exists (boundaries (today now)), (labels now).
  split; [apply fill_days_boundaries|].
  split; [apply length_boundaries|]. split; [apply length_labels|]. split.
  - intros j Hj. split.
    + rewrite index_boundaries by done. by rewrite today_nsec, today_zone.
    + destruct (label_month_day now j) as (y & m & dd & Hc & Hm & Hd & Hl).
      exists y, m, dd. split; [exact Hc|]. split; [exact Hm|]. split; [exact Hd|].
      rewrite index_lookup by (rewrite length_labels; lia).
      rewrite lookup_labels by lia. rewrite Z2Nat.id by lia. by rewrite Hl.
  - intros store R m HR Hm. rewrite !lookup_labels by lia.
    destruct store as [err|es].
    { rewrite ChartData_NotOpen in HR. injection HR as <-. discriminate. }
    rewrite ChartData_Requests in HR.
    destruct (aggregate _ _ _) as [c|]; [|discriminate].
    cbn [fmap option_fmap option_map] in HR. injection HR as <-.
    unfold encode in Hm.
    destruct (json_Marshal (unique c)) as [jsU|e]; [|discriminate].
    destruct (json_Marshal (total c)) as [jsT|e]; [|discriminate].
    cbn [ret_data] in Hm. injection Hm as <-.
    destruct (lookup_chart (labels now) jsU jsT (label now 0) (label now 13))
      as (Hd & _ & _ & Hf & Ht).
    by repeat split.
Qed.

(** With no entry in the store, both series are the encoding of 14
    zeros. *)
Lemma ChartData_empty_store now jsZeros :
  json_Marshal (replicate 14 0) = Ok jsZeros ->
  ChartData' now (Requests [])
  = Some (mkReturned
            (Some (chart (labels now) jsZeros jsZeros (label now 0) (label now 13)))
            None []).
Proof.
  intros Hjs. rewrite ChartData_Requests.
  cbn [decoded decode_log ForEach fst snd aggregate fmap option_fmap option_map].
  unfold encode. cbn [unique total zero_counters]. by rewrite Hjs.
Qed.

End Properties.

(** ** The event recorder *)

(** C5, as the code has it: [Record] appends one request to the queue, and
    its [External] field is true exactly when "/external/" occurs somewhere
    in the request path. *)
Theorem Record_external_contains now req requestChan :
  exists r, Record now req requestChan = requestChan ++ [r] /\
    (External r = true
     <-> exists pre post, URL_Path req = (pre ++ "/external/" ++ post)%string).
Proof.
  eexists. split; [reflexivity|]. cbn [External]. apply Contains_spec.
Qed.

(** A path that holds "/external/" without starting with it is recorded as
    external. *)
Lemma Record_external_not_prefix :
  exists r,
    Record example_now
      (mkRequest "/api/v1/external/posts" "/api/v1/external/posts" "POST" ""
         "HTTP/1.1" "10.0.0.1:4242") []
    = [r] /\
    External r = true /\
    HasPrefix "/api/v1/external/posts" "/external/" = false.
Proof. eexists. split; [reflexivity|]. split; vm_compute; reflexivity. Qed.

(** C10: while the clock reading in milliseconds fits an int64, the
    timestamp of the recorded request is the whole seconds of the reading
    times 1000, a multiple of 1000, whatever the nanoseconds of the
    reading. *)
Theorem Record_timestamp_whole_seconds now req requestChan :
  GoInt.min_int <= sec now * 1000 <= GoInt.max_int ->
  exists r, Record now req requestChan = requestChan ++ [r] /\
    Timestamp r = sec now * 1000 /\
    Timestamp r mod 1000 = 0 /\
    forall ns, Record (mkTime (sec now) ns (zone now)) req requestChan
               = Record now req requestChan.
Proof.
  intros Hfit. eexists. split; [reflexivity|]. cbn [Timestamp].
  unfold GoInt.mul, Unix. rewrite GoInt.wrap_small by exact Hfit.
  split; [reflexivity|]. split; [apply Z.mod_mul; lia|]. reflexivity.
Qed.

Lemma Record_timestamp_whole_seconds_witness :
  GoInt.min_int <= sec (mkTime 1710504000 987654321 0) * 1000 <= GoInt.max_int /\
  exists r,
    Record (mkTime 1710504000 987654321 0)
      (mkRequest "/api/contents" "/api/contents?type=Post" "GET" ""
         "HTTP/1.1" "10.0.0.1:4242") []
    = [] ++ [r] /\
    Timestamp r = sec (mkTime 1710504000 987654321 0) * 1000 /\
    Timestamp r mod 1000 = 0 /\
    forall ns,
      Record (mkTime (sec (mkTime 1710504000 987654321 0)) ns
                (zone (mkTime 1710504000 987654321 0)))
        (mkRequest "/api/contents" "/api/contents?type=Post" "GET" ""
           "HTTP/1.1" "10.0.0.1:4242") []
      = Record (mkTime 1710504000 987654321 0)
          (mkRequest "/api/contents" "/api/contents?type=Post" "GET" ""
             "HTTP/1.1" "10.0.0.1:4242") [].
Proof.
  assert (Hfit : GoInt.min_int <= sec (mkTime 1710504000 987654321 0) * 1000
                 <= GoInt.max_int).
  { unfold GoInt.min_int, GoInt.max_int. cbn [sec]. lia. }
  split; [exact Hfit|].
  exact (Record_timestamp_whole_seconds (mkTime 1710504000 987654321 0)
           (mkRequest "/api/contents" "/api/contents?type=Post" "GET" ""
              "HTTP/1.1" "10.0.0.1:4242") [] Hfit).
Defined.

(** ** The window, on examples *)

(** With the clock two hours east of UTC, half an hour before UTC
    midnight, [today] is not UTC midnight of the current instant: it is the
    coming midnight, later than the clock reading. *)
Lemma today_not_utc_midnight :
  (sec (today example_now_east) =? utc_midnight example_now_east) = false /\
  utc_midnight example_now_east = 1710028800 /\
  sec (today example_now_east) = 1710115200 /\
  sec example_now_east < sec (today example_now_east).
Proof. repeat apply conj; vm_compute; reflexivity. Qed.

(** C1: a request one hour after boundary 0, strictly between the
    boundaries 0 and 1, is counted into bucket 0 and also into the buckets
    1 to 12: 13 counters go up, not one. *)
Theorem ChartData_counts_later_days :
  boundary example_now 0 < sec (instant example_early) /\
  sec (instant example_early) < boundary example_now 1 /\
  aggregate (boundaries (today example_now)) [example_early] zero_counters
  = Some {| total := [1; 1; 1; 1; 1; 1; 1; 1; 1; 1; 1; 1; 1; 0];
            unique := [1; 1; 1; 1; 1; 1; 1; 1; 1; 1; 1; 1; 1; 0];
            ips := replicate 13 {["10.0.0.1:4242"]} ++ [∅] |} /\
  series "total"
    (ChartData (example_decoder [example_early]) json_ints example_now
       (Requests (example_store [example_early])))
  = Some (Str "[1,1,1,1,1,1,1,1,1,1,1,1,1,0]").
Proof. repeat apply conj; vm_compute; reflexivity. Qed.

(** C2: the store holds two requests, both of day 3.  The call returns 14
    labels and two series of 14 counts, but the counts of the days 4 to 12,
    which have no request, are 2 and 1, not 0. *)
Theorem ChartData_empty_days_not_zero :
  forallb (fun r => (boundary example_now 3 <=? sec (instant r))
                    && (sec (instant r) <? boundary example_now 4))
    (decoded (example_decoder example_morning) (example_store example_morning))
  = true /\
  length (decoded (example_decoder example_morning) (example_store example_morning))
  = 2%nat /\
  series "dates"
    (ChartData (example_decoder example_morning) json_ints example_now
       (Requests (example_store example_morning)))
  = Some (Strings ["03/02"; "03/03"; "03/04"; "03/05"; "03/06"; "03/07"; "03/08";
                   "03/09"; "03/10"; "03/11"; "03/12"; "03/13"; "03/14"; "03/15"]) /\
  series "total"
    (ChartData (example_decoder example_morning) json_ints example_now
       (Requests (example_store example_morning)))
  = Some (Str "[0,0,0,2,2,2,2,2,2,2,2,2,2,0]") /\
  series "unique"
    (ChartData (example_decoder example_morning) json_ints example_now
       (Requests (example_store example_morning)))
  = Some (Str "[0,0,0,1,1,1,1,1,1,1,1,1,1,0]").
Proof. repeat apply conj; vm_compute; reflexivity. Qed.

(** ** The properties at work on the examples *)

Lemma ChartData_excludes_older_witness :
  0 <= Timestamp example_old /\
  Timestamp example_old < boundary example_now 0 * 1000 /\
  (forall c, check_request (boundaries (today example_now)) example_old
               (range (boundaries (today example_now))) c = Some c) /\
  (forall j, ~ counted (today example_now) j example_old) /\
  (forall pre k v post,
     example_decoder [example_old] v = Ok example_old ->
     ChartData (example_decoder [example_old]) json_ints example_now
       (Requests (pre ++ (k, v) :: post))
     = ChartData (example_decoder [example_old]) json_ints example_now
         (Requests (pre ++ post))).
Proof.
  assert (H0 : 0 <= Timestamp example_old) by (cbn [Timestamp example_old example_request]; lia).
  assert (H1 : Timestamp example_old < boundary example_now 0 * 1000)
    by (vm_compute; reflexivity).
  split; [exact H0|]. split; [exact H1|].
  exact (ChartData_excludes_older (example_decoder [example_old]) json_ints
           example_now example_old H0 H1).
Defined.

Lemma ChartData_one_per_midnight_witness :
  decoded (example_decoder example_midnights) (example_store example_midnights)
    ≡ₚ example_midnights /\
  length example_midnights = 14%nat /\
  (forall (j : nat) r,
     example_midnights !! j = Some r ->
     Timestamp r
     = (wall_midnight example_now - (13 - Z.of_nat j) * secondsPerDay) * 1000) /\
  json_ints (replicate 14 1) = Ok "[1,1,1,1,1,1,1,1,1,1,1,1,1,1]"%string /\
  (zone example_now = 0 -> wall_midnight example_now = utc_midnight example_now) /\
  exists c m,
    aggregate (boundaries (today example_now))
      (decoded (example_decoder example_midnights) (example_store example_midnights))
      zero_counters = Some c /\
    total c = replicate 14 1 /\ unique c = replicate 14 1 /\
    ChartData (example_decoder example_midnights) json_ints example_now
      (Requests (example_store example_midnights))
    = Some (mkReturned (Some m) None
              (decode_log (example_decoder example_midnights)
                 (example_store example_midnights))) /\
    m !! "total" = Some (Str "[1,1,1,1,1,1,1,1,1,1,1,1,1,1]") /\
    m !! "unique" = Some (Str "[1,1,1,1,1,1,1,1,1,1,1,1,1,1]").
Proof.
  assert (Hperm : decoded (example_decoder example_midnights)
                    (example_store example_midnights) ≡ₚ example_midnights).
  { assert (Heq : decoded (example_decoder example_midnights)
                    (example_store example_midnights) = example_midnights)
      by (vm_compute; reflexivity).
    rewrite Heq. reflexivity. }
  assert (Hlen : length example_midnights = 14%nat) by reflexivity.
  assert (Hrs : forall (j : nat) r,
            example_midnights !! j = Some r ->
            Timestamp r
            = (wall_midnight example_now - (13 - Z.of_nat j) * secondsPerDay) * 1000).
  { assert (Hm : utc_midnight example_now = wall_midnight example_now)
      by (vm_compute; reflexivity).
    intros j r Hr. unfold example_midnights, midnight_requests in Hr.
    rewrite list_lookup_fmap in Hr.
    destruct (seqZ 0 14 !! j) as [i|] eqn:Hi; [|discriminate].
    apply lookup_seqZ in Hi as [-> _]. injection Hr as <-.
    cbn [Timestamp example_request]. rewrite Hm. f_equal; lia. }
  assert (Hjs : json_ints (replicate 14 1) = Ok "[1,1,1,1,1,1,1,1,1,1,1,1,1,1]"%string)
    by reflexivity.
  split; [exact Hperm|]. split; [exact Hlen|]. split; [exact Hrs|].
  split; [exact Hjs|].
  exact (ChartData_one_per_midnight (example_decoder example_midnights) json_ints
           example_now (example_store example_midnights) example_midnights
           "[1,1,1,1,1,1,1,1,1,1,1,1,1,1]" Hperm Hlen Hrs Hjs).
Defined.

(** C6, as the claim has it, fails away from UTC.  The clock reads
    2024-03-10 23:30:00 UTC in a zone two hours east of UTC, and the store
    holds 14 requests of 14 callers stamped at UTC midnight of the last 14
    days, 2024-02-26 to 2024-03-10.  The window of the call ends with
    2024-03-11, the local date: the request of 02-26 lies before it and is
    dropped, every other request is counted one bucket lower than its place
    among the last 14 days, and the newest bucket stays at 0. *)
Lemma ChartData_utc_midnights_east :
  zone example_now_east = 7200 /\
  utc_midnight example_now_east = 1710028800 /\
  Timestamp <$> example_midnights_east
  = [1708905600000; 1708992000000; 1709078400000; 1709164800000; 1709251200000;
     1709337600000; 1709424000000; 1709510400000; 1709596800000; 1709683200000;
     1709769600000; 1709856000000; 1709942400000; 1710028800000] /\
  NoDup (RemoteAddr <$> example_midnights_east) /\
  decoded (example_decoder example_midnights_east)
    (example_store example_midnights_east) = example_midnights_east /\
  series "dates"
    (ChartData (example_decoder example_midnights_east) json_ints example_now_east
       (Requests (example_store example_midnights_east)))
  = Some (Strings ["02/27"; "02/28"; "02/29"; "03/01"; "03/02"; "03/03"; "03/04";
                   "03/05"; "03/06"; "03/07"; "03/08"; "03/09"; "03/10"; "03/11"]) /\
  series "total"
    (ChartData (example_decoder example_midnights_east) json_ints example_now_east
       (Requests (example_store example_midnights_east)))
  = Some (Str "[1,1,1,1,1,1,1,1,1,1,1,1,1,0]") /\
  series "unique"
    (ChartData (example_decoder example_midnights_east) json_ints example_now_east
       (Requests (example_store example_midnights_east)))
  = Some (Str "[1,1,1,1,1,1,1,1,1,1,1,1,1,0]").
Proof.
  split; [reflexivity|]. split; [vm_compute; reflexivity|].
  split; [vm_compute; reflexivity|].
  split; [apply (bool_decide_unpack _); vm_compute; reflexivity|].
  repeat apply conj; vm_compute; reflexivity.
Qed.

Lemma ChartData_skips_undecodable_witness :
  example_decoder example_morning [Byte.x21] = Err "invalid character"%string /\
  decoded (example_decoder example_morning)
    ([example_entry 0] ++ ([Byte.x01], [Byte.x21]) :: [example_entry 1])
  = decoded (example_decoder example_morning) ([example_entry 0] ++ [example_entry 1]) /\
  decode_log (example_decoder example_morning)
    ([example_entry 0] ++ ([Byte.x01], [Byte.x21]) :: [example_entry 1])
  = decode_log (example_decoder example_morning) [example_entry 0]
      ++ Println "Error decoding json from analytics db:" "invalid character"
      :: decode_log (example_decoder example_morning) [example_entry 1] /\
  exists R,
    ChartData (example_decoder example_morning) json_ints example_now
      (Requests ([example_entry 0] ++ [example_entry 1])) = Some R /\
    ChartData (example_decoder example_morning) json_ints example_now
      (Requests ([example_entry 0] ++ ([Byte.x01], [Byte.x21]) :: [example_entry 1]))
    = Some (mkReturned (ret_data R) (ret_err R)
              (decode_log (example_decoder example_morning) [example_entry 0]
                 ++ Println "Error decoding json from analytics db:" "invalid character"
                 :: decode_log (example_decoder example_morning) [example_entry 1])).
Proof.
  assert (Hv : example_decoder example_morning [Byte.x21]
               = Err "invalid character"%string) by reflexivity.
  split; [exact Hv|].
  exact (ChartData_skips_undecodable (example_decoder example_morning) json_ints
           example_now [example_entry 0] [Byte.x01] [Byte.x21] [example_entry 1]
           "invalid character" Hv).
Defined.

Lemma ChartData_unique_le_total_witness :
  Z.of_nat (length (example_store example_morning)) < GoInt.max_int /\
  ChartData (example_decoder example_morning) json_ints example_now
    (Requests (example_store example_morning)) = Some example_returned /\
  ret_data example_returned = Some example_chart /\
  exists u t jsUnique jsTotal,
    json_ints u = Ok jsUnique /\ example_chart !! "unique" = Some (Str jsUnique) /\
    json_ints t = Ok jsTotal /\ example_chart !! "total" = Some (Str jsTotal) /\
    forall j, 0 <= j < 14 ->
      exists uj tj,
        index u j = Some uj /\ index t j = Some tj /\ uj <= tj /\
        tj = Z.of_nat (length (hits (today example_now) j
                                 (decoded (example_decoder example_morning)
                                    (example_store example_morning)))) /\
        uj = Z.of_nat (size (callers (today example_now) j
                               (decoded (example_decoder example_morning)
                                  (example_store example_morning)))).
Proof.
  assert (Hlen : Z.of_nat (length (example_store example_morning)) < GoInt.max_int)
    by (vm_compute; reflexivity).
  assert (HR : ChartData (example_decoder example_morning) json_ints example_now
                 (Requests (example_store example_morning)) = Some example_returned)
    by (vm_compute; reflexivity).
  assert (Hm : ret_data example_returned = Some example_chart)
    by (vm_compute; reflexivity).
  split; [exact Hlen|]. split; [exact HR|]. split; [exact Hm|].
  exact (ChartData_unique_le_total (example_decoder example_morning) json_ints
           example_now (example_store example_morning) example_returned
           example_chart (Z.lt_le_incl _ _ Hlen) HR Hm).
Defined.

(** * Further properties of the aggregation and of the recorder *)

(** ** One request, by the place of its instant *)

(** The turn of one request does the record keeping of the buckets that
    count it, and leaves the other buckets as they are. *)
Lemma check_request_counted d r c :
  wf c ->
  exists c',
    check_request (boundaries d) r (range (boundaries d)) c = Some c' /\
    wf c' /\
    forall k : nat, (k < 14)%nat ->
      bucket c' k
      = if decide (counted d (Z.of_nat k) r)
        then bump (RemoteAddr r) <$> bucket c k
        else bucket c k.
Proof.
  intros Hwf. rewrite check_request_visited; last first.
  { intros j Hj. rewrite range_boundaries in Hj. apply elem_of_seqZ in Hj.
    rewrite length_boundaries. lia. }
  destruct (keep_all_spec (visited (boundaries d) (instant r) (range (boundaries d)))
              (RemoteAddr r) c Hwf) as (c' & Hc' & Hwf' & Hb).
  { apply visited_NoDup. }
  { apply visited_bounds. }
  exists c'. split; [exact Hc'|]. split; [exact Hwf'|].
  intros k Hk. rewrite (Hb k Hk). unfold counted.
  destruct (decide (Z.of_nat k ∈ _)); [|reflexivity].
  by destruct (bucket c k) as [[[t u] s]|].
Qed.

(** The same, when the request is counted into the single bucket [i]. *)
Lemma check_request_single d r c (i : Z) :
  wf c -> 0 <= i < 14 -> (forall j, counted d j r <-> j = i) ->
  exists c',
    check_request (boundaries d) r (range (boundaries d)) c = Some c' /\
    forall k : nat, (k < 14)%nat ->
      bucket c' k
      = if decide (Z.of_nat k = i) then bump (RemoteAddr r) <$> bucket c k
        else bucket c k.
Proof.
  intros Hwf Hi Hc.
  destruct (check_request_counted d r c Hwf) as (c' & Hc' & _ & Hb).
  exists c'. split; [exact Hc'|]. intros k Hk. rewrite (Hb k Hk).
  destruct (decide (counted d (Z.of_nat k) r)) as [Hin|Hin];
    destruct (decide (Z.of_nat k = i)) as [Hki|Hki]; try reflexivity; exfalso.
  - by apply Hki, Hc.
  - by apply Hin, Hc.
Qed.

Lemma yesterday_single d r :
  nsec d = 0 ->
  day_boundary d 12 <= sec (instant r) < day_boundary d 13 ->
  forall j, counted d j r <-> j = 12.
Proof.
  intros Hd Hs j.
  destruct (decide (sec (instant r) = day_boundary d 12)) as [Heq|Hne].
  - by apply counted_at_boundary.
  - rewrite (counted_between d Hd r 13 j); [lia|lia|].
    change (13 - 1) with 12. lia.
Qed.

(** X1: a request on or after [today], be it stamped in the future, is counted
    into the last bucket and into no other: its total goes up by one, its
    unique count goes up by one when the caller is new to the bucket, and
    the other 13 buckets stay as they are. *)
Theorem request_from_today_counted_last now r c :
  wf c -> boundary now 13 <= sec (instant r) ->
  exists c',
    check_request (boundaries (today now)) r (range (boundaries (today now))) c
    = Some c' /\
    forall k : nat, (k < 14)%nat ->
      bucket c' k
      = if decide (Z.of_nat k = 13) then bump (RemoteAddr r) <$> bucket c k
        else bucket c k.
Proof.
  intros Hwf Hs. apply check_request_single; [exact Hwf|lia|].
  intros j. by apply counted_from_today.
Qed.

(** X2: a request stamped exactly on day boundary [i] is counted into bucket
    [i] and into no other. *)
Theorem request_on_boundary_counted_once now r c (i : Z) :
  wf c -> 0 <= i < 14 -> sec (instant r) = boundary now i ->
  exists c',
    check_request (boundaries (today now)) r (range (boundaries (today now))) c
    = Some c' /\
    forall k : nat, (k < 14)%nat ->
      bucket c' k
      = if decide (Z.of_nat k = i) then bump (RemoteAddr r) <$> bucket c k
        else bucket c k.
Proof.
  intros Hwf Hi Hs. apply check_request_single; [exact Hwf|exact Hi|].
  intros j. by apply (counted_at_boundary (today now) (today_nsec now)).
Qed.

(** X3: a request of the day before [today] (on or after boundary 12, before
    boundary 13) is counted into bucket 12 and into no other. *)
Theorem request_of_yesterday_counted_once now r c :
  wf c -> boundary now 12 <= sec (instant r) < boundary now 13 ->
  exists c',
    check_request (boundaries (today now)) r (range (boundaries (today now))) c
    = Some c' /\
    forall k : nat, (k < 14)%nat ->
      bucket c' k
      = if decide (Z.of_nat k = 12) then bump (RemoteAddr r) <$> bucket c k
        else bucket c k.
Proof.
  intros Hwf Hs. apply check_request_single; [exact Hwf|lia|].
  by apply (yesterday_single (today now) r (today_nsec now)).
Qed.

(** ** The arrays as a function of the requests *)

(** Two triples of arrays with the same 14 buckets are the same. *)
Lemma counters_eq c1 c2 :
  wf c1 -> wf c2 -> (forall k : nat, (k < 14)%nat -> bucket c1 k = bucket c2 k) ->
  c1 = c2.
Proof.
  intros (Ht1 & Hu1 & Hs1) (Ht2 & Hu2 & Hs2) Hb.
  assert (Hk : forall k : nat,
            total c1 !! k = total c2 !! k /\ unique c1 !! k = unique c2 !! k /\
            ips c1 !! k = ips c2 !! k).
  { intros k. destruct (decide (k < 14)%nat) as [Hlt|Hge].
    - specialize (Hb k Hlt).
      destruct (bucket_is_Some c1 k (conj Ht1 (conj Hu1 Hs1)) Hlt)
        as (t & u & s & H1).
      rewrite H1 in Hb. symmetry in Hb.
      apply bucket_Some in H1 as (-> & -> & ->).
      apply bucket_Some in Hb as (-> & -> & ->). done.
    - rewrite !lookup_ge_None_2 by lia. done. }
  destruct c1 as [t1 u1 s1], c2 as [t2 u2 s2]. cbn [total unique ips] in *.
  f_equal; apply list_eq; intros k; apply Hk.
Qed.

(** From the empty arrays, the aggregation of at most [max_int] requests
    ends with, in each bucket, the number of requests counted into it, the
    number of their callers and the set of their callers. *)
Lemma aggregate_zero d rs :
  Z.of_nat (length rs) <= GoInt.max_int ->
  exists c,
    aggregate (boundaries d) rs zero_counters = Some c /\ wf c /\
    forall k : nat, (k < 14)%nat ->
      bucket c k
      = Some (Z.of_nat (length (hits d (Z.of_nat k) rs)),
              Z.of_nat (size (callers d (Z.of_nat k) rs)),
              callers d (Z.of_nat k) rs).
Proof.
  intros Hlen. apply (aggregate_counts d rs [] zero_counters wf_zero).
  - intros k Hk. by rewrite bucket_zero.
  - exact Hlen.
Qed.

(** The order of the requests does not matter to the arrays. *)
Lemma aggregate_Permutation d rs1 rs2 :
  rs1 ≡ₚ rs2 -> Z.of_nat (length rs1) <= GoInt.max_int ->
  aggregate (boundaries d) rs1 zero_counters
  = aggregate (boundaries d) rs2 zero_counters.
Proof.
  intros Hp Hlen.
  destruct (aggregate_zero d rs1 Hlen) as (c1 & -> & Hwf1 & Hb1).
  destruct (aggregate_zero d rs2) as (c2 & -> & Hwf2 & Hb2).
  { by rewrite <- Hp. }
  f_equal. apply counters_eq; [done|done|].
  intros k Hk. rewrite (Hb1 k Hk), (Hb2 k Hk). unfold callers, hits.
  assert (Hf : filter (counted d (Z.of_nat k)) rs1
               ≡ₚ filter (counted d (Z.of_nat k)) rs2)
    by (by apply filter_Permutation).
  rewrite (Permutation_length Hf).
  by rewrite (list_to_set_perm_L _ _ (fmap_Permutation RemoteAddr _ _ Hf)).
Qed.

Lemma hits_insert d j rs1 r rs2 :
  hits d j (rs1 ++ r :: rs2)
  ≡ₚ (if decide (counted d j r) then [r] else []) ++ hits d j (rs1 ++ rs2).
Proof.
  unfold hits. rewrite !filter_app, filter_cons.
  destruct (decide (counted d j r)); [|reflexivity].
  cbn [app]. by rewrite Permutation_middle.
Qed.

Section Reading.

Variable json_Unmarshal : bytes -> result apiRequest.

(** The read keeps the order of the store: the requests are the decodable
    entries, the log lines the undecodable ones, each in store order. *)
Lemma decoded_omap es :
  decoded json_Unmarshal es = omap (entry_request json_Unmarshal) es.
Proof.
  induction es as [|kv es IH]; [reflexivity|].
  rewrite decoded_cons. cbn [omap list_omap]. unfold entry_request at 1.
  destruct (json_Unmarshal (snd kv)); by rewrite IH.
Qed.

Lemma decode_log_omap es :
  decode_log json_Unmarshal es = omap (entry_failure json_Unmarshal) es.
Proof.
  induction es as [|kv es IH]; [reflexivity|].
  rewrite decode_log_cons. cbn [omap list_omap]. unfold entry_failure at 1.
  destruct (json_Unmarshal (snd kv)); by rewrite IH.
Qed.

(** X5: every entry of the bucket is read once: it gives one request or one
    line of the log, and the key plays no part. *)
Theorem ForEach_reads_every_entry es :
  decoded json_Unmarshal es = omap (entry_request json_Unmarshal) es /\
  decode_log json_Unmarshal es = omap (entry_failure json_Unmarshal) es /\
  (length (decoded json_Unmarshal es) + length (decode_log json_Unmarshal es)
   = length es)%nat /\
  forall es', snd <$> es = snd <$> es' ->
    decoded json_Unmarshal es = decoded json_Unmarshal es' /\
    decode_log json_Unmarshal es = decode_log json_Unmarshal es'.
Proof.
  split; [apply decoded_omap|]. split; [apply decode_log_omap|]. split.
  - induction es as [|kv es IH]; [reflexivity|].
    rewrite decoded_cons, decode_log_cons.
    destruct (json_Unmarshal (snd kv)); cbn [length]; lia.
  - induction es as [|kv es IH]; intros [|kv' es'] Heq; try discriminate.
    + done.
    + cbn [fmap list_fmap] in Heq. injection Heq as Hkv Hes.
      rewrite !decoded_cons, !decode_log_cons, <- Hkv.
      destruct (IH es' Hes) as [-> ->]. done.
Qed.

End Reading.

(** ** The report as a function of the store *)

Lemma size_add_caller (a : string) (X : gset string) :
  size ({[a]} ∪ X) = if decide (a ∈ X) then size X else S (size X).
Proof.
  destruct (decide (a ∈ X)) as [Hin|Hnin].
  - by rewrite subseteq_union_1_L by (by apply singleton_subseteq_l).
  - rewrite size_union, size_singleton by (by apply disjoint_singleton_l).
    reflexivity.
Qed.

Lemma callers_insert d j rs1 r rs2 :
  callers d j (rs1 ++ r :: rs2)
  = if decide (counted d j r) then {[RemoteAddr r]} ∪ callers d j (rs1 ++ rs2)
    else callers d j (rs1 ++ rs2).
Proof.
  unfold callers.
  rewrite (list_to_set_perm_L _ _
             (fmap_Permutation RemoteAddr _ _ (hits_insert d j rs1 r rs2))).
  destruct (decide (counted d j r)); [|reflexivity].
  cbn [app fmap list_fmap]. by rewrite list_to_set_cons.
Qed.

Lemma length_hits_insert d j rs1 r rs2 :
  length (hits d j (rs1 ++ r :: rs2))
  = if decide (counted d j r) then S (length (hits d j (rs1 ++ rs2)))
    else length (hits d j (rs1 ++ rs2)).
Proof.
  rewrite (Permutation_length (hits_insert d j rs1 r rs2)).
  by destruct (decide (counted d j r)).
Qed.

Lemma size_list_to_set_zero (l : list string) :
  size (list_to_set l : gset string) = 0%nat <-> length l = 0%nat.
Proof.
  destruct l as [|a l]; [done|]. cbn [length].
  rewrite list_to_set_cons, size_add_caller. split; [|discriminate].
  destruct (decide (a ∈ list_to_set l)) as [Hin|Hnin]; [|discriminate].
  intros H0. apply size_empty_inv, leibniz_equiv in H0.
  rewrite H0 in Hin. by apply not_elem_of_empty in Hin.
Qed.

(** The buckets by index of type [int]. *)
Lemma bucket_index c (j : Z) t u s :
  wf c -> 0 <= j < 14 -> bucket c (Z.to_nat j) = Some (t, u, s) ->
  index (total c) j = Some t /\ index (unique c) j = Some u.
Proof.
  intros (Ht & Hu & _) Hj Hb. apply bucket_Some in Hb as (Hbt & Hbu & _).
  by rewrite (index_lookup (total c)), (index_lookup (unique c)) by lia.
Qed.

Section Report.

Variable json_Unmarshal : bytes -> result apiRequest.
Variable json_Marshal : list Z -> result string.

Local Abbreviation decoded' := (decoded json_Unmarshal).
Local Abbreviation decode_log' := (decode_log json_Unmarshal).
Local Abbreviation ChartData' := (ChartData json_Unmarshal json_Marshal).

Lemma encode_ret_data now log1 log2 c :
  ret_data (encode json_Marshal now log1 c) = ret_data (encode json_Marshal now log2 c) /\
  ret_err (encode json_Marshal now log1 c) = ret_err (encode json_Marshal now log2 c) /\
  logged (encode json_Marshal now log1 c) = log1.
Proof.
  unfold encode. destruct (json_Marshal (unique c)); [|done].
  by destruct (json_Marshal (total c)).
Qed.

(** The arrays of a call on an open store, with the report made of them. *)
Lemma ChartData_arrays now es :
  Z.of_nat (length es) <= GoInt.max_int ->
  exists c,
    aggregate (boundaries (today now)) (decoded' es) zero_counters = Some c /\
    wf c /\
    ChartData' now (Requests es)
    = Some (encode json_Marshal now (decode_log' es) c) /\
    forall k : nat, (k < 14)%nat ->
      bucket c k
      = Some (Z.of_nat (length (hits (today now) (Z.of_nat k) (decoded' es))),
              Z.of_nat (size (callers (today now) (Z.of_nat k) (decoded' es))),
              callers (today now) (Z.of_nat k) (decoded' es)).
Proof.
  intros Hlen.
  destruct (aggregate_zero (today now) (decoded' es)) as (c & Hc & Hwf & Hb).
  { pose proof (length_decoded json_Unmarshal es). lia. }
  exists c. split; [exact Hc|]. split; [exact Hwf|]. split; [|exact Hb].
  by rewrite ChartData_Requests, Hc.
Qed.

(** X6: the report does not depend on the order in which the entries of the
    bucket are visited: two stores with the same entries in another order
    give the same map and the same error, and the same log lines in
    another order. *)
Theorem ChartData_order_irrelevant now es1 es2 :
  es1 ≡ₚ es2 -> Z.of_nat (length es1) <= GoInt.max_int ->
  exists R1 R2,
    ChartData' now (Requests es1) = Some R1 /\
    ChartData' now (Requests es2) = Some R2 /\
    ret_data R1 = ret_data R2 /\ ret_err R1 = ret_err R2 /\
    logged R1 ≡ₚ logged R2.
Proof.
  intros Hp Hlen.
  destruct (ChartData_arrays now es1 Hlen) as (c & Hc & _ & HR1 & _).
  assert (Hd : decoded' es1 ≡ₚ decoded' es2).
  { rewrite !decoded_omap. by apply omap_Permutation. }
  assert (Hl : decode_log' es1 ≡ₚ decode_log' es2).
  { rewrite !decode_log_omap. by apply omap_Permutation. }
  rewrite (aggregate_Permutation _ _ _ Hd) in Hc.
  2:{ pose proof (length_decoded json_Unmarshal es1). lia. }
  do 2 eexists. split; [exact HR1|]. split.
  { by rewrite ChartData_Requests, Hc. }
  destruct (encode_ret_data now (decode_log' es1) (decode_log' es2) c)
    as (Hdata & Herr & Hlog1).
  destruct (encode_ret_data now (decode_log' es2) (decode_log' es1) c)
    as (_ & _ & Hlog2).
  split; [exact Hdata|]. split; [exact Herr|]. rewrite Hlog1, Hlog2. exact Hl.
Qed.

(** X7: a call returns an error in three cases only, and returns that very
    error: the store cannot be viewed, the unique counts cannot be encoded,
    or they can and the totals cannot.  A store that cannot be viewed is
    not read, so nothing is logged; and the error is nil exactly when a
    map is returned. *)
Theorem ChartData_error_iff now store :
  exists R, ChartData' now store = Some R /\
    (forall e, ret_err R = Some e <->
       store = NotOpen e \/
       exists es c,
         store = Requests es /\
         aggregate (boundaries (today now)) (decoded' es) zero_counters = Some c /\
         (json_Marshal (unique c) = Err e \/
          (exists js, json_Marshal (unique c) = Ok js) /\
          json_Marshal (total c) = Err e)) /\
    (forall e, store = NotOpen e -> logged R = []) /\
    (ret_err R = None <-> is_Some (ret_data R)).
Proof.
  destruct store as [err|es].
  { rewrite ChartData_NotOpen. eexists. split; [reflexivity|].
    cbn [ret_err ret_data logged]. split; [|split].
    - intros e. split.
      + intros [= ->]. by left.
      + intros [[= ->]|(es & c & Hs & _)]; [done|discriminate].
    - done.
    - split; [discriminate|]. by intros [m Hm]. }
  rewrite ChartData_Requests.
  destruct (aggregate_total (today now) (decoded' es) zero_counters wf_zero)
    as (c & Hc & _).
  rewrite Hc. cbn [fmap option_fmap option_map]. eexists. split; [reflexivity|].
  split; [|split].
  - intros e. unfold encode.
    destruct (json_Marshal (unique c)) as [jsU|eU] eqn:HU.
    + destruct (json_Marshal (total c)) as [jsT|eT] eqn:HT; cbn [ret_err].
      * split; [discriminate|].
        intros [Hs|(es' & c' & [= <-] & Hc' & H)]; [discriminate|].
        rewrite Hc in Hc'. injection Hc' as <-. rewrite HU, HT in H.
        destruct H as [H|[_ H]]; discriminate.
      * split.
        -- intros [= ->]. right. exists es, c. rewrite HU, HT. eauto 10.
        -- intros [Hs|(es' & c' & [= <-] & Hc' & H)]; [discriminate|].
           rewrite Hc in Hc'. injection Hc' as <-. rewrite HU, HT in H.
           destruct H as [H|[_ H]]; [discriminate|]. by injection H as ->.
    + cbn [ret_err]. split.
      * intros [= ->]. right. exists es, c. rewrite HU. eauto 10.
      * intros [Hs|(es' & c' & [= <-] & Hc' & H)]; [discriminate|].
        rewrite Hc in Hc'. injection Hc' as <-. rewrite HU in H.
        destruct H as [H|[[js H] _]]; [|discriminate]. by injection H as ->.
  - discriminate.
  - unfold encode. destruct (json_Marshal (unique c)).
    + destruct (json_Marshal (total c)); cbn [ret_err ret_data].
      * split; [eauto|done].
      * split; [discriminate|]. by intros [m Hm].
    + cbn [ret_err ret_data]. split; [discriminate|]. by intros [m Hm].
Qed.

(** X8: a store of which no entry decodes gives the report of the empty store,
    and one line of the log for each entry. *)
Theorem ChartData_nothing_decodes now es :
  (forall kv, kv ∈ es -> exists err, json_Unmarshal (snd kv) = Err err) ->
  exists R0 R,
    ChartData json_Unmarshal json_Marshal now (Requests []) = Some R0 /\
    ChartData json_Unmarshal json_Marshal now (Requests es) = Some R /\
    ret_data R = ret_data R0 /\ ret_err R = ret_err R0 /\
    logged R0 = [] /\ length (logged R) = length es.
Proof.
  intros Hall.
  assert (Hd : decoded' es = [] /\ length (decode_log' es) = length es).
  { induction es as [|kv es IH]; [done|].
    destruct (Hall kv ltac:(left)) as [err Herr].
    rewrite decoded_cons, decode_log_cons, Herr. cbn [length].
    destruct IH as [-> ->]; [|done].
    intros kv' Hkv'. apply Hall. by right. }
  destruct Hd as [Hd Hl].
  rewrite !ChartData_Requests, Hd.
  change (decoded' []) with (@nil apiRequest).
  cbn [aggregate fmap option_fmap option_map]. do 2 eexists.
  split; [reflexivity|]. split; [reflexivity|].
  destruct (encode_ret_data now (decode_log' es) (decode_log' []) zero_counters)
    as (Hdata & Herr & Hlog).
  destruct (encode_ret_data now (decode_log' []) (decode_log' es) zero_counters)
    as (_ & _ & Hlog0).
  split; [exact Hdata|]. split; [exact Herr|]. split; [exact Hlog0|].
  rewrite Hlog. exact Hl.
Qed.

(** X9: no count is negative or larger than the number of entries of the
    store, and in every bucket the unique count is zero exactly when the
    total is. *)
Theorem ChartData_counts_bounded now es :
  Z.of_nat (length es) <= GoInt.max_int ->
  exists c,
    aggregate (boundaries (today now)) (decoded' es) zero_counters = Some c /\
    ChartData' now (Requests es)
    = Some (encode json_Marshal now (decode_log' es) c) /\
    forall j, 0 <= j < 14 ->
      exists t u,
        index (total c) j = Some t /\ index (unique c) j = Some u /\
        0 <= u /\ u <= t /\ t <= Z.of_nat (length (decoded' es)) /\
        Z.of_nat (length (decoded' es)) <= Z.of_nat (length es) /\
        (u = 0 <-> t = 0).
Proof.
  intros Hlen.
  destruct (ChartData_arrays now es Hlen) as (c & Hc & Hwf & HR & Hb).
  exists c. split; [exact Hc|]. split; [exact HR|]. intros j Hj.
  specialize (Hb (Z.to_nat j) ltac:(lia)). rewrite Z2Nat.id in Hb by lia.
  destruct (bucket_index c j _ _ _ Hwf Hj Hb) as (Ht & Hu).
  do 2 eexists. split; [exact Ht|]. split; [exact Hu|].
  pose proof (length_decoded json_Unmarshal es) as Hd.
  pose proof (length_filter (counted (today now) j) (decoded' es)) as Hf.
  fold (hits (today now) j (decoded' es)) in Hf.
  pose proof (size_list_to_set_le (RemoteAddr <$> hits (today now) j (decoded' es)))
    as Hs.
  rewrite length_fmap in Hs. fold (callers (today now) j (decoded' es)) in Hs.
  pose proof (size_list_to_set_zero
                (RemoteAddr <$> hits (today now) j (decoded' es))) as Hz.
  rewrite length_fmap in Hz. fold (callers (today now) j (decoded' es)) in Hz.
  repeat split; lia.
Qed.

(** X10: when all the requests of the store come from one caller, every unique
    count is 1 where the total is not zero, and 0 where it is. *)
Theorem ChartData_single_caller now es addr :
  Z.of_nat (length es) <= GoInt.max_int ->
  (forall r, r ∈ decoded' es -> RemoteAddr r = addr) ->
  exists c,
    aggregate (boundaries (today now)) (decoded' es) zero_counters = Some c /\
    ChartData' now (Requests es)
    = Some (encode json_Marshal now (decode_log' es) c) /\
    forall j, 0 <= j < 14 ->
      exists t,
        index (total c) j = Some t /\
        index (unique c) j = Some (if t =? 0 then 0 else 1).
Proof.
  intros Hlen Hone.
  destruct (ChartData_arrays now es Hlen) as (c & Hc & Hwf & HR & Hb).
  exists c. split; [exact Hc|]. split; [exact HR|]. intros j Hj.
  specialize (Hb (Z.to_nat j) ltac:(lia)). rewrite Z2Nat.id in Hb by lia.
  destruct (bucket_index c j _ _ _ Hwf Hj Hb) as (Ht & Hu).
  eexists. split; [exact Ht|]. rewrite Hu. f_equal.
  assert (Hall : forall r, r ∈ hits (today now) j (decoded' es) -> RemoteAddr r = addr).
  { intros r Hr. apply Hone. unfold hits in Hr.
    by apply list_elem_of_filter in Hr as [_ Hr]. }
  unfold callers.
  destruct (hits (today now) j (decoded' es)) as [|r l]; [done|].
  assert (Hset : list_to_set (RemoteAddr <$> r :: l) = ({[addr]} : gset string)).
  { apply set_eq. intros a. rewrite elem_of_list_to_set, list_elem_of_fmap,
      elem_of_singleton. split.
    - intros (r' & -> & Hr'). by apply Hall.
    - intros ->. exists r. split; [symmetry; apply Hall|]; left. }
  rewrite Hset, size_singleton. cbn [length].
  destruct (Z.eqb_spec (Z.of_nat (S (length l))) 0); [lia|reflexivity].
Qed.

(** X11: when the callers of the requests of the store are all different, the
    unique counts are the totals. *)
Theorem ChartData_distinct_callers now es :
  Z.of_nat (length es) <= GoInt.max_int ->
  NoDup (RemoteAddr <$> decoded' es) ->
  exists c,
    aggregate (boundaries (today now)) (decoded' es) zero_counters = Some c /\
    ChartData' now (Requests es)
    = Some (encode json_Marshal now (decode_log' es) c) /\
    unique c = total c.
Proof.
  intros Hlen Hnd.
  destruct (ChartData_arrays now es Hlen) as (c & Hc & Hwf & HR & Hb).
  exists c. split; [exact Hc|]. split; [exact HR|].
  pose proof Hwf as (Ht & Hu & _).
  apply list_eq. intros k. destruct (decide (k < 14)%nat) as [Hk|Hk].
  - specialize (Hb k Hk). apply bucket_Some in Hb as (-> & -> & _).
    do 2 f_equal. unfold callers. rewrite size_list_to_set, length_fmap; [done|].
    eapply sublist_NoDup; [exact Hnd|].
    apply fmap_sublist. unfold hits. apply sublist_filter.
  - by rewrite !lookup_ge_None_2 by lia.
Qed.

(** X12: one more entry in the store, wherever it stands, lowers no count and
    raises each count by one at most; a unique count goes up only where
    the total does. *)
Theorem ChartData_one_more_entry now pre kv post :
  Z.of_nat (length (pre ++ kv :: post)) <= GoInt.max_int ->
  exists c c',
    aggregate (boundaries (today now)) (decoded' (pre ++ post)) zero_counters
    = Some c /\
    aggregate (boundaries (today now)) (decoded' (pre ++ kv :: post)) zero_counters
    = Some c' /\
    forall j, 0 <= j < 14 ->
      exists t u t' u',
        index (total c) j = Some t /\ index (unique c) j = Some u /\
        index (total c') j = Some t' /\ index (unique c') j = Some u' /\
        t <= t' /\ t' <= t + 1 /\ u <= u' /\ u' - u <= t' - t.
Proof.
  intros Hlen. rewrite length_app in Hlen. cbn [length] in Hlen.
  destruct (ChartData_arrays now (pre ++ post)) as (c & Hc & Hwf & _ & Hb).
  { rewrite length_app. lia. }
  destruct (ChartData_arrays now (pre ++ kv :: post)) as (c' & Hc' & Hwf' & _ & Hb').
  { rewrite length_app. cbn [length]. lia. }
  exists c, c'. split; [exact Hc|]. split; [exact Hc'|]. intros j Hj.
  specialize (Hb (Z.to_nat j) ltac:(lia)). rewrite Z2Nat.id in Hb by lia.
  specialize (Hb' (Z.to_nat j) ltac:(lia)). rewrite Z2Nat.id in Hb' by lia.
  destruct (bucket_index c j _ _ _ Hwf Hj Hb) as (Ht & Hu).
  destruct (bucket_index c' j _ _ _ Hwf' Hj Hb') as (Ht' & Hu').
  do 4 eexists. split; [exact Ht|]. split; [exact Hu|].
  split; [exact Ht'|]. split; [exact Hu'|].
  rewrite !decoded_app, decoded_cons.
  destruct (json_Unmarshal (snd kv)) as [r|err]; [|lia].
  rewrite length_hits_insert, callers_insert.
  destruct (decide (counted (today now) j r)); [|lia].
  rewrite size_add_caller. destruct (decide (RemoteAddr r ∈ _)); lia.
Qed.

End Report.

(** ** From the recorder to the report *)

(** The buckets that count a request, by its age in days at the call:
    [D] is the day number of [today], and [k] the number of days from the
    day of the request to [today]. *)
Lemma counted_by_age d r (D k : Z) :
  nsec d = 0 -> sec d = D * secondsPerDay ->
  k = D - sec (instant r) / secondsPerDay ->
  (k <= 0 -> forall j, counted d j r <-> j = 13) /\
  (k = 1 -> forall j, counted d j r <-> j = 12) /\
  (2 <= k <= 13 -> counted d (13 - k) r) /\
  (14 <= k -> forall j, ~ counted d j r).
Proof.
  intros Hd HD Hk.
  assert (Hb : forall i, day_boundary d i = (D - (13 - i)) * secondsPerDay).
  { intros i. unfold day_boundary. rewrite HD. lia. }
  assert (Hs : (D - k) * secondsPerDay <= sec (instant r)
               < (D - k + 1) * secondsPerDay).
  { subst k. unfold secondsPerDay. Z.div_mod_to_equations. lia. }
  split; [|split; [|split]].
  - intros Hk0 j. apply counted_from_today; [exact Hd|].
    rewrite Hb. unfold secondsPerDay in *. nia.
  - intros Hk1 j. apply yesterday_single; [exact Hd|].
    rewrite !Hb. subst k. rewrite Hk1 in Hs. unfold secondsPerDay in *. lia.
  - intros Hk2.
    destruct (decide (sec (instant r) = day_boundary d (13 - k))) as [Heq|Hne].
    + apply (counted_at_boundary d Hd r (13 - k)); [lia|exact Heq|reflexivity].
    + rewrite Hb in Hne.
      apply (counted_between d Hd r (14 - k)); [lia| |lia].
      rewrite !Hb. unfold secondsPerDay in *. lia.
  - intros Hk14 j. apply counted_before_window; [exact Hd|].
    rewrite Hb. unfold secondsPerDay in *. nia.
Qed.

Lemma Record_instant now req requestChan r :
  Record now req requestChan = requestChan ++ [r] ->
  0 <= sec now -> sec now * 1000 <= GoInt.max_int ->
  sec (instant r) = sec now.
Proof.
  intros HR H0 Hfit. unfold Record in HR. apply app_inv_head in HR.
  injection HR as <-. apply instant_whole_second. cbn [Timestamp].
  unfold GoInt.mul, Unix. apply GoInt.wrap_small.
  unfold GoInt.min_int, GoInt.max_int in *. lia.
Qed.


(** ** The labels of the window *)

(** The same month and day in two different years are more than 13 days
    apart. *)
Lemma days_from_civil_year_gap y1 y2 m d :
  1 <= m <= 12 -> y1 < y2 ->
  days_from_civil y1 m d + 365 <= days_from_civil y2 m d.
Proof.
  intros Hm Hy. unfold days_from_civil. cbv zeta.
  rewrite (Z.div_small (m - 1) 12), (Z.mod_small (m - 1) 12) by lia.
  replace (m - 1 + 1) with m by lia. rewrite !Z.add_0_r.
  set (c := if m <=? 2 then 1 else 0).
  replace (if m <=? 2 then y1 - 1 else y1) with (y1 - c)
    by (subst c; destruct (m <=? 2); lia).
  replace (if m <=? 2 then y2 - 1 else y2) with (y2 - c)
    by (subst c; destruct (m <=? 2); lia).
  generalize (y1 - c) (y2 - c) (ltac:(lia) : y1 - c < y2 - c).
  clear. intros a b Hab.
  set (h := (153 * (if 2 <? m then m - 3 else m + 9) + 2) / 5 + d - 1).
  clearbody h. Z.div_mod_to_equations. lia.
Qed.

Lemma pad2_inj n n' :
  0 <= n < 100 -> 0 <= n' < 100 -> pad2 n = pad2 n' -> n = n'.
Proof.
  intros Hn Hn' Heq.
  destruct (pad2_decimal n Hn) as (a & b & Hp & Ha & Hb).
  destruct (pad2_decimal n' Hn') as (a' & b' & Hp' & Ha' & Hb').
  rewrite Hp, Hp' in Heq. injection Heq as -> ->.
  Z.div_mod_to_equations. lia.
Qed.

Lemma label_inj now (j1 j2 : Z) :
  0 <= j1 < 14 -> 0 <= j2 < 14 -> label now j1 = label now j2 -> j1 = j2.
Proof.
  intros H1 H2 Heq.
  destruct (label_month_day now j1) as (y1 & m1 & d1 & Hc1 & Hm1 & Hd1 & Hl1).
  destruct (label_month_day now j2) as (y2 & m2 & d2 & Hc2 & Hm2 & Hd2 & Hl2).
  rewrite Hl1, Hl2 in Heq.
  destruct (pad2_decimal m1 ltac:(lia)) as (a1 & b1 & Hp1 & _).
  destruct (pad2_decimal m2 ltac:(lia)) as (a2 & b2 & Hp2 & _).
  assert (Hmm : pad2 m1 = pad2 m2 /\ pad2 d1 = pad2 d2).
  { rewrite Hp1, Hp2 in Heq |- *. cbn [String.append] in Heq.
    injection Heq as -> -> Hq Hr. split; [reflexivity|].
    unfold pad2. by rewrite Hq, Hr. }
  destruct Hmm as [Hmm Hdd].
  apply pad2_inj in Hmm; [|lia|lia]. apply pad2_inj in Hdd; [|lia|lia].
  subst m2 d2.
  pose proof (civil_from_days_spec (sec (today now) / secondsPerDay - (13 - j1)))
    as Hs1. rewrite Hc1 in Hs1. destruct Hs1 as (_ & _ & Hs1).
  pose proof (civil_from_days_spec (sec (today now) / secondsPerDay - (13 - j2)))
    as Hs2. rewrite Hc2 in Hs2. destruct Hs2 as (_ & _ & Hs2).
  generalize dependent (sec (today now) / secondsPerDay). intros D _ _ Hs1 Hs2.
  destruct (Z.lt_trichotomy y1 y2) as [Hlt|[Heqy|Hgt]].
  - pose proof (days_from_civil_year_gap y1 y2 m1 d1 Hm1 Hlt). lia.
  - subst y2. lia.
  - pose proof (days_from_civil_year_gap y2 y1 m1 d1 Hm1 Hgt). lia.
Qed.

(** X14: the first loop of [ChartData] gives the 14 days 14 different labels. *)
Theorem ChartData_labels_distinct now :
  exists times dates,
    fill_days (today now) (range (replicate 14 zeroTime))
      (replicate 14 zeroTime) (replicate 14 EmptyString) = Some (times, dates) /\
    length dates = 14%nat /\ NoDup dates.
Proof.
  exists (boundaries (today now)), (labels now).
  split; [apply fill_days_boundaries|]. split; [apply length_labels|].
  rewrite labels_eq. apply NoDup_fmap_2_strong; [|apply NoDup_seqZ].
  intros j1 j2 H1 H2. apply elem_of_seqZ in H1, H2. apply label_inj; lia.
Qed.

(** ** The window as a whole *)

Lemma counted_own_day d r :
  nsec d = 0 ->
  ((exists j, counted d j r) <-> day_boundary d 0 <= sec (instant r)) /\
  (day_boundary d 0 <= sec (instant r) ->
   counted d (Z.min 13 ((sec (instant r) - day_boundary d 0) / secondsPerDay)) r).
Proof.
  intros Hd.
  assert (Hown : day_boundary d 0 <= sec (instant r) ->
    counted d (Z.min 13 ((sec (instant r) - day_boundary d 0) / secondsPerDay)) r).
  { intros Hs.
    set (q := (sec (instant r) - day_boundary d 0) / secondsPerDay).
    assert (Hq : day_boundary d 0 + q * secondsPerDay <= sec (instant r)
                 < day_boundary d 0 + (q + 1) * secondsPerDay /\ 0 <= q).
    { subst q. unfold secondsPerDay. Z.div_mod_to_equations. lia. }
    assert (Hb : forall i, day_boundary d i = day_boundary d 0 + i * secondsPerDay).
    { intros i. unfold day_boundary. lia. }
    destruct (Z.le_gt_cases 13 q) as [Hge|Hlt].
    - rewrite Z.min_l by lia.
      assert (H13 : day_boundary d 13 <= sec (instant r)).
      { rewrite (Hb 13). unfold secondsPerDay in *. lia. }
      by apply (counted_from_today d Hd r 13 H13).
    - rewrite Z.min_r by lia.
      destruct (decide (sec (instant r) = day_boundary d q)) as [Heq|Hne].
      + by apply (counted_at_boundary d Hd r q q ltac:(lia) Heq).
      + rewrite (Hb q) in Hne.
        assert (Hbt : day_boundary d (q + 1 - 1) < sec (instant r)
                      < day_boundary d (q + 1)).
        { rewrite (Hb (q + 1 - 1)), (Hb (q + 1)).
          replace (q + 1 - 1) with q by lia. lia. }
        apply (counted_between d Hd r (q + 1) q ltac:(lia) Hbt). lia. }
  split; [|exact Hown]. split.
  - intros [j Hj]. destruct (Z.le_gt_cases (day_boundary d 0) (sec (instant r)))
      as [Hle|Hgt]; [exact Hle|].
    exfalso. by apply (counted_before_window d Hd r j).
  - intros Hs. eexists. by apply Hown.
Qed.


(** ** The further properties at work on examples *)

Lemma request_from_today_counted_last_witness :
  wf zero_counters /\
  boundary example_now 13 <= sec (instant example_at_now) /\
  exists c',
    check_request (boundaries (today example_now)) example_at_now
      (range (boundaries (today example_now))) zero_counters = Some c' /\
    forall k : nat, (k < 14)%nat ->
      bucket c' k
      = if decide (Z.of_nat k = 13)
        then bump (RemoteAddr example_at_now) <$> bucket zero_counters k
        else bucket zero_counters k.
Proof.
  assert (H1 : wf zero_counters) by (repeat split).
  assert (H2 : boundary example_now 13 <= sec (instant example_at_now))
    by (apply Z.leb_le; vm_compute; reflexivity).
  split; [exact H1|]. split; [exact H2|].
  exact (request_from_today_counted_last example_now example_at_now
           zero_counters H1 H2).
Defined.

Lemma request_on_boundary_counted_once_witness :
  wf zero_counters /\ 0 <= 5 < 14 /\
  sec (instant example_on_boundary) = boundary example_now 5 /\
  exists c',
    check_request (boundaries (today example_now)) example_on_boundary
      (range (boundaries (today example_now))) zero_counters = Some c' /\
    forall k : nat, (k < 14)%nat ->
      bucket c' k
      = if decide (Z.of_nat k = 5)
        then bump (RemoteAddr example_on_boundary) <$> bucket zero_counters k
        else bucket zero_counters k.
Proof.
  assert (H1 : wf zero_counters) by (repeat split).
  assert (H2 : 0 <= 5 < 14) by lia.
  assert (H3 : sec (instant example_on_boundary) = boundary example_now 5)
    by (vm_compute; reflexivity).
  split; [exact H1|]. split; [exact H2|]. split; [exact H3|].
  exact (request_on_boundary_counted_once example_now example_on_boundary
           zero_counters 5 H1 H2 H3).
Defined.

Lemma request_of_yesterday_counted_once_witness :
  wf zero_counters /\
  boundary example_now 12 <= sec (instant example_yesterday)
    < boundary example_now 13 /\
  exists c',
    check_request (boundaries (today example_now)) example_yesterday
      (range (boundaries (today example_now))) zero_counters = Some c' /\
    forall k : nat, (k < 14)%nat ->
      bucket c' k
      = if decide (Z.of_nat k = 12)
        then bump (RemoteAddr example_yesterday) <$> bucket zero_counters k
        else bucket zero_counters k.
Proof.
  assert (H1 : wf zero_counters) by (repeat split).
  assert (H2 : boundary example_now 12 <= sec (instant example_yesterday)
               < boundary example_now 13).
  { split; [apply Z.leb_le|]; vm_compute; reflexivity. }
  split; [exact H1|]. split; [exact H2|].
  exact (request_of_yesterday_counted_once example_now example_yesterday
           zero_counters H1 H2).
Defined.

Lemma ChartData_order_irrelevant_witness :
  [example_entry 0; example_entry 1] ≡ₚ [example_entry 1; example_entry 0] /\
  Z.of_nat (length [example_entry 0; example_entry 1]) < GoInt.max_int /\
  exists R1 R2,
    ChartData (example_decoder example_morning) json_ints example_now
      (Requests [example_entry 0; example_entry 1]) = Some R1 /\
    ChartData (example_decoder example_morning) json_ints example_now
      (Requests [example_entry 1; example_entry 0]) = Some R2 /\
    ret_data R1 = ret_data R2 /\ ret_err R1 = ret_err R2 /\
    logged R1 ≡ₚ logged R2.
Proof.
  assert (H1 : [example_entry 0; example_entry 1]
               ≡ₚ [example_entry 1; example_entry 0]) by apply perm_swap.
  assert (H2 : Z.of_nat (length [example_entry 0; example_entry 1])
               < GoInt.max_int) by (vm_compute; reflexivity).
  split; [exact H1|]. split; [exact H2|].
  exact (ChartData_order_irrelevant (example_decoder example_morning) json_ints
           example_now _ _ H1 (Z.lt_le_incl _ _ H2)).
Defined.

Lemma ChartData_nothing_decodes_witness :
  (forall kv, kv ∈ example_garbage ->
     exists err, example_decoder example_morning (snd kv) = Err err) /\
  exists R0 R,
    ChartData (example_decoder example_morning) json_ints example_now
      (Requests []) = Some R0 /\
    ChartData (example_decoder example_morning) json_ints example_now
      (Requests example_garbage) = Some R /\
    ret_data R = ret_data R0 /\ ret_err R = ret_err R0 /\
    logged R0 = [] /\ length (logged R) = length example_garbage.
Proof.
  assert (H1 : forall kv, kv ∈ example_garbage ->
            exists err, example_decoder example_morning (snd kv) = Err err).
  { intros kv Hkv. unfold example_garbage in Hkv.
    apply elem_of_cons in Hkv as [->|Hkv]; [eexists; reflexivity|].
    apply elem_of_cons in Hkv as [->|Hkv]; [eexists; reflexivity|].
    by apply elem_of_nil in Hkv. }
  split; [exact H1|].
  exact (ChartData_nothing_decodes (example_decoder example_morning) json_ints
           example_now example_garbage H1).
Defined.

Lemma ChartData_counts_bounded_witness :
  Z.of_nat (length (example_store example_morning)) < GoInt.max_int /\
  exists c,
    aggregate (boundaries (today example_now))
      (decoded (example_decoder example_morning) (example_store example_morning))
      zero_counters = Some c /\
    ChartData (example_decoder example_morning) json_ints example_now
      (Requests (example_store example_morning))
    = Some (encode json_ints example_now
              (decode_log (example_decoder example_morning)
                 (example_store example_morning)) c) /\
    forall j, 0 <= j < 14 ->
      exists t u,
        index (total c) j = Some t /\ index (unique c) j = Some u /\
        0 <= u /\ u <= t /\
        t <= Z.of_nat (length (decoded (example_decoder example_morning)
                                 (example_store example_morning))) /\
        Z.of_nat (length (decoded (example_decoder example_morning)
                            (example_store example_morning)))
        <= Z.of_nat (length (example_store example_morning)) /\
        (u = 0 <-> t = 0).
Proof.
  assert (H1 : Z.of_nat (length (example_store example_morning)) < GoInt.max_int)
    by (vm_compute; reflexivity).
  split; [exact H1|].
  exact (ChartData_counts_bounded (example_decoder example_morning) json_ints
           example_now (example_store example_morning) (Z.lt_le_incl _ _ H1)).
Defined.

Lemma ChartData_single_caller_witness :
  Z.of_nat (length (example_store example_morning)) < GoInt.max_int /\
  (forall r,
     r ∈ decoded (example_decoder example_morning) (example_store example_morning) ->
     RemoteAddr r = "10.0.0.7:5151"%string) /\
  exists c,
    aggregate (boundaries (today example_now))
      (decoded (example_decoder example_morning) (example_store example_morning))
      zero_counters = Some c /\
    ChartData (example_decoder example_morning) json_ints example_now
      (Requests (example_store example_morning))
    = Some (encode json_ints example_now
              (decode_log (example_decoder example_morning)
                 (example_store example_morning)) c) /\
    forall j, 0 <= j < 14 ->
      exists t,
        index (total c) j = Some t /\
        index (unique c) j = Some (if t =? 0 then 0 else 1).
Proof.
  assert (H1 : Z.of_nat (length (example_store example_morning)) < GoInt.max_int)
    by (vm_compute; reflexivity).
  assert (H2 : forall r,
            r ∈ decoded (example_decoder example_morning)
                  (example_store example_morning) ->
            RemoteAddr r = "10.0.0.7:5151"%string).
  { intros r Hr.
    assert (Heq : decoded (example_decoder example_morning)
                    (example_store example_morning) = example_morning)
      by (vm_compute; reflexivity).
    rewrite Heq in Hr. unfold example_morning in Hr.
    apply elem_of_cons in Hr as [->|Hr]; [reflexivity|].
    apply elem_of_cons in Hr as [->|Hr]; [reflexivity|].
    by apply elem_of_nil in Hr. }
  split; [exact H1|]. split; [exact H2|].
  exact (ChartData_single_caller (example_decoder example_morning) json_ints
           example_now (example_store example_morning) "10.0.0.7:5151"
           (Z.lt_le_incl _ _ H1) H2).
Defined.

Lemma ChartData_distinct_callers_witness :
  Z.of_nat (length (example_store [example_early; example_old])) < GoInt.max_int /\
  NoDup (RemoteAddr <$> decoded (example_decoder [example_early; example_old])
                          (example_store [example_early; example_old])) /\
  exists c,
    aggregate (boundaries (today example_now))
      (decoded (example_decoder [example_early; example_old])
         (example_store [example_early; example_old]))
      zero_counters = Some c /\
    ChartData (example_decoder [example_early; example_old]) json_ints example_now
      (Requests (example_store [example_early; example_old]))
    = Some (encode json_ints example_now
              (decode_log (example_decoder [example_early; example_old])
                 (example_store [example_early; example_old])) c) /\
    unique c = total c.
Proof.
  assert (H1 : Z.of_nat (length (example_store [example_early; example_old]))
               < GoInt.max_int) by (vm_compute; reflexivity).
  assert (H2 : NoDup (RemoteAddr <$>
                      decoded (example_decoder [example_early; example_old])
                        (example_store [example_early; example_old]))).
  { apply (bool_decide_unpack _). vm_compute. exact I. }
  split; [exact H1|]. split; [exact H2|].
  exact (ChartData_distinct_callers (example_decoder [example_early; example_old])
           json_ints example_now (example_store [example_early; example_old])
           (Z.lt_le_incl _ _ H1) H2).
Defined.

Lemma ChartData_one_more_entry_witness :
  Z.of_nat (length ([example_entry 0] ++ example_entry 1 :: [])) < GoInt.max_int /\
  exists c c',
    aggregate (boundaries (today example_now))
      (decoded (example_decoder example_morning) ([example_entry 0] ++ []))
      zero_counters = Some c /\
    aggregate (boundaries (today example_now))
      (decoded (example_decoder example_morning)
         ([example_entry 0] ++ example_entry 1 :: []))
      zero_counters = Some c' /\
    forall j, 0 <= j < 14 ->
      exists t u t' u',
        index (total c) j = Some t /\ index (unique c) j = Some u /\
        index (total c') j = Some t' /\ index (unique c') j = Some u' /\
        t <= t' /\ t' <= t + 1 /\ u <= u' /\ u' - u <= t' - t.
Proof.
  assert (H1 : Z.of_nat (length ([example_entry 0] ++ example_entry 1 :: []))
               < GoInt.max_int) by (vm_compute; reflexivity).
  split; [exact H1|].
  exact (ChartData_one_more_entry (example_decoder example_morning) json_ints
           example_now
           [example_entry 0] (example_entry 1) [] (Z.lt_le_incl _ _ H1)).
Defined.

